(** * PII detection and anonymization app: the orchestration layer of main.py

    main.py is a thin layer over third-party engines (the Presidio analyzer
    and anonymizer, the csv and json modules of the Python library).  The
    development embeds the functions of main.py as they are written and takes
    the engines as the fields of two records, so that every statement below
    holds for whichever engine is plugged in.  A small executable engine
    (module [Reference]) is used to run the embedded functions on concrete
    inputs. *)

From Stdlib Require Import List ZArith NArith QArith Bool Lia String Ascii.
From Stdlib Require Import Strings.Byte DecimalString.
Import ListNotations.

Set Implicit Arguments.
Local Open Scope Z_scope.

(** ** Python values *)

(** A Python [str] is a sequence of Unicode code points. *)
Definition char := N.
Definition str := list char.

(** A literal of the source, written as a Rocq string. *)
Fixpoint lit (s : string) : str :=
  match s with
  | EmptyString => []
  | String a s' => N_of_ascii a :: lit s'
  end.

Definition str_eq_dec : forall s t : str, {s = t} + {s <> t} :=
  list_eq_dec N.eq_dec.

(** [s == t] on strings. *)
Definition str_eqb (s t : str) : bool :=
  if str_eq_dec s t then true else false.

(** [x in l] for a list of strings [l]. *)
Definition str_in (x : str) (l : list str) : bool :=
  existsb (str_eqb x) l.

(** [len(s)] as a Python int. *)
Definition len {A} (s : list A) : Z := Z.of_nat (List.length s).

(** A slice bound [i] of [s[i:j]], for a sequence of length [n]: a negative
    bound counts from the end, and every bound is clamped to [0..n]. *)
Definition slice_bound (n i : Z) : Z :=
  if i <? 0 then Z.max 0 (i + n) else Z.min i n.

(** [s[i:j]] *)
Definition py_slice {A} (s : list A) (i j : Z) : list A :=
  let a := slice_bound (len s) i in
  let b := slice_bound (len s) j in
  firstn (Z.to_nat (b - a)) (skipn (Z.to_nat a) s).

(** [s.startswith(p)] *)
Fixpoint startswith (s p : str) : bool :=
  match p, s with
  | [], _ => true
  | _ :: _, [] => false
  | c :: p', d :: s' => N.eqb c d && startswith s' p'
  end.

(** [s.endswith(p)] *)
Definition endswith (s p : str) : bool := startswith (rev s) (rev p).

(** [str.isspace] on one character: the code points Python treats as white
    space. *)
Definition isspace (c : char) : bool :=
  ((9 <=? c) && (c <=? 13) || (28 <=? c) && (c <=? 32) || (c =? 133) ||
   (c =? 160) || (c =? 5760) || (8192 <=? c) && (c <=? 8202) ||
   (c =? 8232) || (c =? 8233) || (c =? 8239) || (c =? 8287) ||
   (c =? 12288))%N.

Fixpoint lstrip (s : str) : str :=
  match s with
  | c :: s' => if isspace c then lstrip s' else s
  | [] => []
  end.

(** [s.strip()] *)
Definition strip (s : str) : str := rev (lstrip (rev (lstrip s))).

(** [s.split(sep)] for a one-character separator: the fields between the
    occurrences of [sep]; always at least one field. *)
Fixpoint split (sep : char) (s : str) : list str :=
  match s with
  | [] => [[]]
  | c :: s' =>
      if N.eqb c sep then [] :: split sep s'
      else match split sep s' with
           | f :: fs => (c :: f) :: fs
           | [] => [[c]]
           end
  end.

Definition comma : char := 44%N.

(** Truth value of an optional string argument: [None] and [""] are false. *)
Definition truthy (s : option str) : option str :=
  match s with
  | Some (c :: r) => Some (c :: r)
  | _ => None
  end.

(** ** Exceptions *)

Inductive exn : Type :=
| UnicodeDecodeError
| IndexError
| ValueError (msg : string)
| LibraryError (msg : string).

Inductive result (A : Type) : Type :=
| Return (a : A)
| Raise (e : exn).
Arguments Return {A} a.
Arguments Raise {A} e.

Definition bind {A B} (m : result A) (k : A -> result B) : result B :=
  match m with
  | Return a => k a
  | Raise e => Raise e
  end.

Declare Scope py_scope.
Notation "x <- m ;; k" := (bind m (fun x => k))
  (at level 61, m at next level, right associativity) : py_scope.
Local Open Scope py_scope.

(** ** [bytes.decode("utf-8")] *)

Definition bytes := list byte.

Definition cont (b : N) : bool := ((128 <=? b) && (b <=? 191))%N.

(** Strict UTF-8: no overlong forms, no surrogates, nothing above U+10FFFF. *)
Fixpoint decode_points (bs : list N) : option str :=
  match bs with
  | [] => Some []
  | b0 :: r0 =>
      if (b0 <? 128)%N then option_map (cons b0) (decode_points r0)
      else if ((194 <=? b0) && (b0 <=? 223))%N then
        match r0 with
        | b1 :: r1 =>
            if cont b1
            then option_map (cons ((b0 - 192) * 64 + (b1 - 128))%N)
                            (decode_points r1)
            else None
        | _ => None
        end
      else if ((224 <=? b0) && (b0 <=? 239))%N then
        match r0 with
        | b1 :: b2 :: r2 =>
            let c := ((b0 - 224) * 4096 + (b1 - 128) * 64 + (b2 - 128))%N in
            if cont b1 && cont b2 && (2048 <=? c)%N
               && negb ((55296 <=? c) && (c <=? 57343))%N
            then option_map (cons c) (decode_points r2)
            else None
        | _ => None
        end
      else if ((240 <=? b0) && (b0 <=? 244))%N then
        match r0 with
        | b1 :: b2 :: b3 :: r3 =>
            let c := ((b0 - 240) * 262144 + (b1 - 128) * 4096
                      + (b2 - 128) * 64 + (b3 - 128))%N in
            if cont b1 && cont b2 && cont b3
               && (65536 <=? c)%N && (c <=? 1114111)%N
            then option_map (cons c) (decode_points r3)
            else None
        | _ => None
        end
      else None
  end.

Definition decode_utf8 (data : bytes) : result str :=
  match decode_points (map Byte.to_N data) with
  | Some s => Return s
  | None => Raise UnicodeDecodeError
  end.

(** ** Data of the engines and of main.py *)

(** A [RecognizerResult] of the analyzer: a labelled span with a score. *)
Record RecognizerResult : Type := {
  entity_type : str;
  start : Z;
  end_ : Z;
  score : Q
}.

(** One entry of the [patterns] argument of [PatternRecognizer]. *)
Record PatternDict : Type := {
  pattern_name : str;
  pattern_regex : str;
  pattern_score : Q
}.

(** A readable result of [detect_pii]: the dict with the keys ["entity"],
    ["score"] and ["text"]. *)
Record Match : Type := {
  entity : str;
  mscore : Q;
  text_of : str
}.

(** A value of [json.loads]; a dict keeps its items in insertion order. *)
#[warnings="-register-all"] Inductive json : Type :=
| JNull
| JBool (b : bool)
| JInt (n : Z)
| JFloat (x : Q)
| JStr (s : str)
| JList (xs : list json)
| JDict (items : list (str * json)).

(** An uploaded file: [file.name] and what [file.read()] returns. *)
Record File : Type := {
  name : str;
  read : bytes
}.

(** The Presidio engines.  A registry is the list of its recognizers:
    [load_predefined_recognizers] fills it and [add_recognizer] appends to
    it.  [analyze registry text entities language] is
    [AnalyzerEngine(registry=registry).analyze(...)], with [entities = None]
    when the argument is left out; [anonymize text results] is the [text] of
    what [AnonymizerEngine().anonymize(...)] returns.  The two engines are
    taken here on the calls that return, and the statements over this record
    tell what main.py makes of their results; the constructor of a pattern
    recognizer may raise, which main.py provides for.  An analyzer whose
    calls may raise is the subject of the module [Raising] below. *)
Record Presidio : Type := {
  Recognizer : Type;
  load_predefined_recognizers : list Recognizer;
  PatternRecognizer : str -> list PatternDict -> result Recognizer;
  analyze :
    list Recognizer -> str -> option (list str) -> str ->
    list RecognizerResult;
  anonymize : str -> list RecognizerResult -> str
}.

(** The pieces of the Python library that main.py calls. *)
Record PyLib : Type := {
  lower : str -> str;
  csv_reader : str -> result (list (list str));
  csv_writerow : list str -> str;
  json_loads : str -> result json;
  json_dumps : json -> str;
  repr_matches : list Match -> str
}.

(** [round(x, 3)]: the nearest multiple of 1/1000, ties to the even one.
    Scores are taken as exact rationals. *)
Definition round_half_even (q : Q) : Z :=
  let n := Qnum q in
  let d := Zpos (Qden q) in
  let fl := n / d in
  let r2 := 2 * (n mod d) in
  if r2 <? d then fl
  else if d <? r2 then fl + 1
  else if Z.even fl then fl else fl + 1.

Definition round3 (q : Q) : Q :=
  Qmake (round_half_even (q * (1000 # 1))) 1000.

(** [dict[k] = v]: replaces the value of an existing key in place, appends a
    new key at the end. *)
Fixpoint dict_set {V} (d : list (str * V)) (k : str) (v : V) :
  list (str * V) :=
  match d with
  | [] => [(k, v)]
  | (k', v') :: d' =>
      if str_eqb k' k then (k', v) :: d' else (k', v') :: dict_set d' k v
  end.

(** A dict built from a sequence of items, as a dict comprehension does. *)
Definition dict_of_items {V} (items : list (str * V)) : list (str * V) :=
  fold_left (fun d kv => dict_set d (fst kv) (snd kv)) items [].

(** The list of dicts of [detect_pii] as a JSON value. *)
Definition json_of_match (m : Match) : json :=
  JDict [(lit "entity", JStr (entity m));
         (lit "score", JFloat (mscore m));
         (lit "text", JStr (text_of m))].

Definition json_of_matches (ms : list Match) : json :=
  JList (map json_of_match ms).

(** ** The functions of main.py *)

Section Orchestration.

Context (P : Presidio) (L : PyLib).

(** main.py, lines 45-55 *)
Definition build_custom_regex_recognizer (patterns : option str) :
  option (Recognizer P) :=
  match truthy patterns with
  | None => None
  | Some p =>
      match PatternRecognizer P (lit "CUSTOM_PII")
              [{| pattern_name := lit "custom_pattern";
                  pattern_regex := p;
                  pattern_score := 85 # 100 |}] with
      | Return r => Some r
      | Raise _ => None
      end
  end.

(** The table of lines 29-35.  No function of main.py reads it. *)
Definition PII_LABELS : list (str * str) :=
  [(lit "PERSON", lit "PERSON");
   (lit "EMAIL_ADDRESS", lit "EMAIL");
   (lit "PHONE_NUMBER", lit "PHONE");
   (lit "LOCATION", lit "LOCATION");
   (lit "ORG", lit "ORGANIZATION")].

(** The entities that [detect_pii] asks for, line 75. *)
Definition detect_entities : list str :=
  [lit "PERSON"; lit "EMAIL_ADDRESS"; lit "PHONE_NUMBER"; lit "LOCATION";
   lit "CREDIT_CARD"; lit "CUSTOM_PII"].

(** main.py, lines 62-88 *)
Definition detect_pii (text : str) (custom_regex : option str) :
  list Match :=
  let registry := load_predefined_recognizers P in
  let registry :=
    match truthy custom_regex with
    | Some _ =>
        match build_custom_regex_recognizer custom_regex with
        | Some custom_recog => registry ++ [custom_recog]
        | None => registry
        end
    | None => registry
    end in
  let results :=
    analyze P registry text (Some detect_entities) (lit "en") in
  map (fun res =>
         {| entity := entity_type res;
            mscore := round3 (score res);
            text_of := py_slice text (start res) (end_ res) |})
      results.

(** main.py, lines 95-112 *)
Definition anonymize_text (text : str) (custom_regex : option str)
  (whitelist : option (list str)) : str :=
  let registry := load_predefined_recognizers P in
  let registry :=
    match truthy custom_regex with
    | Some _ =>
        match build_custom_regex_recognizer custom_regex with
        | Some custom_recog => registry ++ [custom_recog]
        | None => registry
        end
    | None => registry
    end in
  let results := analyze P registry text None (lit "en") in
  let results :=
    match whitelist with
    | Some (w :: ws) =>
        filter (fun r =>
                  negb (str_in (py_slice text (start r) (end_ r))
                               (w :: ws)))
               results
    | _ => results
    end in
  anonymize P text results.

(** [process_json], lines 156-163, for the [custom_regex], [mode] and
    [whitelist_items] of the enclosing call. *)
Fixpoint process_json (custom_regex : option str) (mode : str)
  (whitelist_items : list str) (obj : json) : json :=
  match obj with
  | JDict items =>
      JDict (dict_of_items
               (map (fun kv =>
                       let '(k, v) := kv in
                       (k, process_json custom_regex mode whitelist_items v))
                    items))
  | JList xs =>
      JList (map (process_json custom_regex mode whitelist_items) xs)
  | JStr s =>
      if str_eqb mode (lit "detect")
      then json_of_matches (detect_pii s custom_regex)
      else JStr (anonymize_text s custom_regex (Some whitelist_items))
  | _ => obj
  end.

(** line 123 *)
Definition whitelist_items_of (whitelist : option str) : list str :=
  match truthy whitelist with
  | Some w => map strip (split comma w)
  | None => []
  end.

(** One cell of a CSV row, lines 138-141. *)
Definition process_cell (custom_regex : option str) (mode : str)
  (whitelist_items : list str) (cell : str) : str :=
  if str_eqb mode (lit "detect")
  then repr_matches L (detect_pii cell custom_regex)
  else anonymize_text cell custom_regex (Some whitelist_items).

Definition pdf_message : str :=
  lit "PDF support present in your original code (presidio can't extract text reliably).".

(** main.py, lines 119-183 *)
Definition process_file (file : option File) (custom_regex : option str)
  (whitelist : option str) (mode : str) : result (str * option str) :=
  match file with
  | None => Return (lit "No file uploaded", None)
  | Some file =>
      let whitelist_items := whitelist_items_of whitelist in
      let name := lower L (name file) in
      let data := read file in
      if endswith name (lit ".csv") then
        decoded <- decode_utf8 data ;;
        reader <- csv_reader L decoded ;;
        match reader with
        | [] => Raise IndexError
        | header :: rows =>
            let output_rows :=
              map (fun row =>
                     map (process_cell custom_regex mode whitelist_items)
                         row)
                  rows in
            let out_csv :=
              csv_writerow L header
              ++ List.concat (map (csv_writerow L) output_rows) in
            Return (out_csv, Some out_csv)
        end
      else if endswith name (lit ".json") then
        decoded <- decode_utf8 data ;;
        json_data <- json_loads L decoded ;;
        let processed :=
          process_json custom_regex mode whitelist_items json_data in
        let result_str := json_dumps L processed in
        Return (result_str, Some result_str)
      else if endswith name (lit ".txt") then
        text <- decode_utf8 data ;;
        (* [str(processed)]: the repr of the list, or the string itself *)
        let processed :=
          if str_eqb mode (lit "detect")
          then repr_matches L (detect_pii text custom_regex)
          else anonymize_text text custom_regex (Some whitelist_items) in
        Return (processed, Some processed)
      else if endswith name (lit ".pdf") then
        Return (pdf_message, None)
      else Return (lit "Unsupported file type", None)
  end.

(** lines 190-200 *)
Definition analyze_file (file : option File) (custom_regex whitelist :
  option str) : result str :=
  r <- process_file file custom_regex whitelist (lit "detect") ;;
  Return (fst r).

Definition anonymize_file (file : option File) (custom_regex whitelist :
  option str) : result str :=
  r <- process_file file custom_regex whitelist (lit "anonymize") ;;
  Return (fst r).

Definition quick_test (text : str) (custom_regex whitelist : option str) :
  str :=
  anonymize_text text custom_regex (Some (whitelist_items_of whitelist)).

End Orchestration.

(** ** A reference engine

    An executable stand-in for the engines, small enough to evaluate: the
    recognizers are deny lists (every occurrence of a listed word is a
    match), the anonymizer puts [<ENTITY>] in place of a span, the CSV codec
    knows no quoting and the JSON codec no escapes.  It is used only to run
    the functions above on concrete inputs. *)

Module Reference.

Record DenyList : Type := {
  dl_entity : str;
  dl_words : list (str * Q)
}.

(** The spans of [s] at which the word [w] occurs, starting the count at
    [i]; an empty word matches nowhere. *)
Fixpoint find_all (w : str) (i : Z) (s : str) : list (Z * Z) :=
  match s with
  | [] => []
  | _ :: s' =>
      (if negb (Nat.eqb (List.length w) 0) && startswith s w
       then [(i, i + len w)] else [])
      ++ find_all w (i + 1) s'
  end.

Definition recognize (text : str) (r : DenyList) : list RecognizerResult :=
  flat_map (fun wq =>
              map (fun ab =>
                     {| entity_type := dl_entity r;
                        start := fst ab;
                        end_ := snd ab;
                        score := snd wq |})
                  (find_all (fst wq) 0 text))
           (dl_words r).

Definition analyze (registry : list DenyList) (text : str)
  (entities : option (list str)) (language : str) : list RecognizerResult :=
  let found := flat_map (recognize text) registry in
  match entities with
  | Some es => filter (fun r => str_in (entity_type r) es) found
  | None => found
  end.

(** The characters that make a pattern more than a literal word. *)
Definition metachars : str := lit "\^$.|?*+()[]{}".

Definition literal (p : str) : bool :=
  forallb (fun c => negb (existsb (N.eqb c) metachars)) p.

(** Builds a deny list from literal patterns, and fails on any other. *)
Definition PatternRecognizer (supported_entity : str)
  (patterns : list PatternDict) : result DenyList :=
  if forallb (fun p => literal (pattern_regex p)) patterns
  then Return {| dl_entity := supported_entity;
                 dl_words := map (fun p => (pattern_regex p, pattern_score p))
                                 patterns |}
  else Raise (ValueError "unsupported pattern").

Definition predefined : list DenyList :=
  [ {| dl_entity := lit "EMAIL_ADDRESS";
       dl_words := [(lit "john@example.com", 1 # 1)] |};
    {| dl_entity := lit "URL";
       dl_words := [(lit "example.com", 1 # 2)] |};
    {| dl_entity := lit "PERSON";
       dl_words := [(lit "John Doe", 85 # 100)] |} ].

Definition placeholder (r : RecognizerResult) : str :=
  lit "<" ++ entity_type r ++ lit ">".

(** Left-to-right replacement: at position [i], the first span of [rs] that
    starts there is replaced by its placeholder and the scan resumes at its
    end ([skip] characters further); other characters are copied. *)
Fixpoint replace_spans (rs : list RecognizerResult) (i : Z) (skip : nat)
  (s : str) : str :=
  match s with
  | [] => []
  | c :: s' =>
      match skip with
      | S k => replace_spans rs (i + 1) k s'
      | O =>
          match find (fun r => (start r =? i) && (i <? end_ r)) rs with
          | Some r =>
              placeholder r
              ++ replace_spans rs (i + 1) (Z.to_nat (end_ r - i - 1)) s'
          | None => c :: replace_spans rs (i + 1) O s'
          end
      end
  end.

Definition anonymize (text : str) (results : list RecognizerResult) : str :=
  replace_spans results 0 O text.

Definition engine : Presidio :=
  Build_Presidio predefined PatternRecognizer analyze anonymize.

(** *** The library stand-ins *)

Definition lower (s : str) : str :=
  map (fun c => if ((65 <=? c) && (c <=? 90))%N then (c + 32)%N else c) s.

Fixpoint join (sep : str) (l : list str) : str :=
  match l with
  | [] => []
  | [x] => x
  | x :: l' => x ++ sep ++ join sep l'
  end.

Definition drop_cr (line : str) : str :=
  match rev line with
  | 13%N :: r => rev r
  | _ => line
  end.

Definition drop_last_empty (ls : list str) : list str :=
  match rev ls with
  | [] :: r => rev r
  | _ => ls
  end.

(** Lines end in a line feed, fields are split at commas, a blank line is
    an empty row. *)
Definition csv_reader (s : str) : result (list (list str)) :=
  Return (map (fun line =>
                 match drop_cr line with
                 | [] => []
                 | l => split comma l
                 end)
              (drop_last_empty (split 10%N s))).

Definition csv_writerow (row : list str) : str :=
  join [comma] row ++ [13%N; 10%N].

Definition show_Z (z : Z) : str :=
  lit (NilZero.string_of_int (Z.to_int z)).

(** A score with at most three decimals, as [repr] prints it. *)
Definition show_score (q : Q) : str :=
  let n := Qnum q in
  let d := Zpos (Qden q) in
  let ip := n / d in
  let m := (1000 * (n mod d)) / d in
  let d1 := m / 100 in
  let d2 := (m / 10) mod 10 in
  let d3 := m mod 10 in
  show_Z ip ++ lit "." ++ show_Z d1
  ++ (if (d2 =? 0) && (d3 =? 0) then [] else show_Z d2)
  ++ (if d3 =? 0 then [] else show_Z d3).

Definition quote (q : string) (s : str) : str := lit q ++ s ++ lit q.

Definition repr_match (m : Match) : str :=
  lit "{'entity': " ++ quote "'" (entity m)
  ++ lit ", 'score': " ++ show_score (mscore m)
  ++ lit ", 'text': " ++ quote "'" (text_of m) ++ lit "}".

Definition repr_matches (ms : list Match) : str :=
  lit "[" ++ join (lit ", ") (map repr_match ms) ++ lit "]".

Definition indent (n : nat) : str := repeat 32%N (2 * n).

Definition dq : str := [34%N].

(** [json.dumps(v, indent=2)] *)
Fixpoint dumps (n : nat) (v : json) : str :=
  match v with
  | JNull => lit "null"
  | JBool true => lit "true"
  | JBool false => lit "false"
  | JInt z => show_Z z
  | JFloat x => show_score x
  | JStr s => dq ++ s ++ dq
  | JList [] => lit "[]"
  | JList xs =>
      lit "[" ++ [10%N]
      ++ join (lit "," ++ [10%N])
              (map (fun x => indent (S n) ++ dumps (S n) x) xs)
      ++ [10%N] ++ indent n ++ lit "]"
  | JDict [] => lit "{}"
  | JDict items =>
      lit "{" ++ [10%N]
      ++ join (lit "," ++ [10%N])
              (map (fun kv =>
                      let '(k, x) := kv in
                      indent (S n) ++ dq ++ k ++ dq ++ lit ": "
                      ++ dumps (S n) x)
                   items)
      ++ [10%N] ++ indent n ++ lit "}"
  end.

Fixpoint skip_ws (s : str) : str :=
  match s with
  | c :: s' =>
      if ((c =? 32) || (c =? 9) || (c =? 10) || (c =? 13))%N
      then skip_ws s' else s
  | [] => []
  end.

(** The characters of a string up to its closing quote. *)
Fixpoint string_body (s : str) : option (str * str) :=
  match s with
  | [] => None
  | c :: s' =>
      if (c =? 34)%N then Some ([], s')
      else if (c =? 92)%N then None
      else option_map (fun tr => (c :: fst tr, snd tr)) (string_body s')
  end.

Fixpoint digits (acc : Z) (s : str) : Z * str :=
  match s with
  | c :: s' =>
      if ((48 <=? c) && (c <=? 57))%N
      then digits (10 * acc + Z.of_N (c - 48)) s'
      else (acc, s)
  | [] => (acc, [])
  end.

Definition is_digit (c : char) : bool := ((48 <=? c) && (c <=? 57))%N.

Fixpoint parse_value (fuel : nat) (s : str) : option (json * str) :=
  match fuel with
  | O => None
  | S f =>
      match skip_ws s with
      | [] => None
      | c :: r =>
          if startswith (c :: r) (lit "null") then Some (JNull, skipn 3 r)
          else if startswith (c :: r) (lit "true")
          then Some (JBool true, skipn 3 r)
          else if startswith (c :: r) (lit "false")
          then Some (JBool false, skipn 4 r)
          else if (c =? 34)%N
          then option_map (fun tr => (JStr (fst tr), snd tr)) (string_body r)
          else if (c =? 45)%N
          then match r with
               | d :: _ =>
                   if is_digit d
                   then Some (JInt (- fst (digits 0 r)), snd (digits 0 r))
                   else None
               | [] => None
               end
          else if is_digit c
          then Some (JInt (fst (digits 0 (c :: r))), snd (digits 0 (c :: r)))
          else if (c =? 91)%N
          then match skip_ws r with
               | 93%N :: r' => Some (JList [], r')
               | _ => option_map (fun xr => (JList (fst xr), snd xr))
                                 (parse_elems f r)
               end
          else if (c =? 123)%N
          then match skip_ws r with
               | 125%N :: r' => Some (JDict [], r')
               | _ => option_map
                        (fun xr => (JDict (dict_of_items (fst xr)), snd xr))
                        (parse_members f r)
               end
          else None
      end
  end
with parse_elems (fuel : nat) (s : str) : option (list json * str) :=
  match fuel with
  | O => None
  | S f =>
      match parse_value f s with
      | Some (v, r) =>
          match skip_ws r with
          | 44%N :: r' =>
              option_map (fun xr => (v :: fst xr, snd xr)) (parse_elems f r')
          | 93%N :: r' => Some ([v], r')
          | _ => None
          end
      | None => None
      end
  end
with parse_members (fuel : nat) (s : str) :
  option (list (str * json) * str) :=
  match fuel with
  | O => None
  | S f =>
      match skip_ws s with
      | 34%N :: r =>
          match string_body r with
          | Some (k, r1) =>
              match skip_ws r1 with
              | 58%N :: r2 =>
                  match parse_value f r2 with
                  | Some (v, r3) =>
                      match skip_ws r3 with
                      | 44%N :: r4 =>
                          option_map (fun xr => ((k, v) :: fst xr, snd xr))
                                     (parse_members f r4)
                      | 125%N :: r4 => Some ([(k, v)], r4)
                      | _ => None
                      end
                  | None => None
                  end
              | _ => None
              end
          | None => None
          end
      | _ => None
      end
  end.

(** [json.loads]: one value, then only white space. *)
Definition json_loads (s : str) : result json :=
  match parse_value (S (List.length s)) s with
  | Some (v, r) =>
      match skip_ws r with
      | [] => Return v
      | _ => Raise (ValueError "Extra data")
      end
  | None => Raise (ValueError "Expecting value")
  end.

Definition pylib : PyLib :=
  Build_PyLib lower csv_reader csv_writerow json_loads (dumps 0)
              repr_matches.

(** Bytes of an ASCII literal, for sample files. *)
Definition ascii_bytes (s : string) : bytes := list_byte_of_string s.

End Reference.

(** ** An analyzer whose calls may raise

    [detect_pii] once more, over an analyzer whose [analyze] may raise.  The
    body is that of lines 62-88; an exception of [analyze] is passed on, as
    the call of line 73 stands outside any [try] (the [try] of the builder,
    lines 49-55, encloses the constructor only). *)

Module Raising.

Record Analyzer : Type := {
  recognizer : Type;
  predefined_recognizers : list recognizer;
  pattern_recognizer : str -> list PatternDict -> result recognizer;
  analyze_call :
    list recognizer -> str -> option (list str) -> str ->
    result (list RecognizerResult)
}.

(** An analyzer of the record [Presidio], whose calls all return. *)
Definition of_presidio (P : Presidio) : Analyzer :=
  {| recognizer := Recognizer P;
     predefined_recognizers := load_predefined_recognizers P;
     pattern_recognizer := PatternRecognizer P;
     analyze_call := fun registry text entities language =>
                       Return (analyze P registry text entities language) |}.

(** main.py, lines 45-55 *)
Definition build_custom_regex_recognizer (A : Analyzer)
  (patterns : option str) : option (recognizer A) :=
  match truthy patterns with
  | None => None
  | Some p =>
      match pattern_recognizer A (lit "CUSTOM_PII")
              [{| pattern_name := lit "custom_pattern";
                  pattern_regex := p;
                  pattern_score := 85 # 100 |}] with
      | Return r => Some r
      | Raise _ => None
      end
  end.

(** main.py, lines 62-88 *)
Definition detect_pii (A : Analyzer) (text : str)
  (custom_regex : option str) : result (list Match) :=
  let registry := predefined_recognizers A in
  let registry :=
    match truthy custom_regex with
    | Some _ =>
        match build_custom_regex_recognizer A custom_regex with
        | Some custom_recog => registry ++ [custom_recog]
        | None => registry
        end
    | None => registry
    end in
  results <- analyze_call A registry text (Some detect_entities) (lit "en") ;;
  Return
    (map (fun res =>
            {| entity := entity_type res;
               mscore := round3 (score res);
               text_of := py_slice text (start res) (end_ res) |})
         results).

(** *** The library on the patterns of line 52

    An executable stand-in for the analyzer as the library treats what
    line 52 hands it: the constructor keeps the [patterns] it is given
    without looking at them (it refuses only an empty entity and an empty
    list), and the analysis, which expects pattern objects, fails on a
    recognizer that holds dicts as soon as the entity of that recognizer is
    among those asked for.  The predefined recognizers are the deny lists of
    [Reference]. *)

Inductive StrictRecognizer : Type :=
| Builtin (d : Reference.DenyList)
| OfDicts (supported_entity : str) (patterns : list PatternDict).

Definition strict_constructor (supported_entity : str)
  (patterns : list PatternDict) : result StrictRecognizer :=
  match supported_entity, patterns with
  | [], _ =>
      Raise (ValueError "Pattern recognizer should be initialized with entity")
  | _, [] =>
      Raise (ValueError "Pattern recognizer should be initialized with patterns or with deny list")
  | _, _ => Return (OfDicts supported_entity patterns)
  end.

(** The recognizers that serve the entities asked for: all of them when no
    entity is named. *)
Definition asked_for (entities : option (list str)) (e : str) : bool :=
  match entities with
  | None => true
  | Some es => str_in e es
  end.

Definition holds_dicts (entities : option (list str))
  (r : StrictRecognizer) : bool :=
  match r with
  | OfDicts e _ => asked_for entities e
  | Builtin _ => false
  end.

Definition builtins (registry : list StrictRecognizer) :
  list Reference.DenyList :=
  flat_map (fun r => match r with
                     | Builtin d => [d]
                     | OfDicts _ _ => []
                     end)
           registry.

Definition strict_analyze (registry : list StrictRecognizer) (text : str)
  (entities : option (list str)) (language : str) :
  result (list RecognizerResult) :=
  if existsb (holds_dicts entities) registry
  then Raise (LibraryError "AttributeError")
  else Return (Reference.analyze (builtins registry) text entities language).

Definition strict : Analyzer :=
  {| recognizer := StrictRecognizer;
     predefined_recognizers := map Builtin Reference.predefined;
     pattern_recognizer := strict_constructor;
     analyze_call := strict_analyze |}.

End Raising.

(** ** Vocabulary of the statements *)

(** [x] occurs in [s] as a contiguous run of characters. *)
Definition infix (x s : str) : Prop := exists p q, s = p ++ x ++ q.

(** The text of a detected span, [text[r.start:r.end]]. *)
Definition span_text (text : str) (r : RecognizerResult) : str :=
  py_slice text (start r) (end_ r).

(** The registry that [detect_pii] and [anonymize_text] both assemble
    (lines 63-69 and 96-102): the predefined recognizers, and the custom one
    at the end when a pattern is given and the recognizer could be built. *)
Definition registry_for (P : Presidio) (custom_regex : option str) :
  list (Recognizer P) :=
  match build_custom_regex_recognizer P custom_regex with
  | Some custom_recog => load_predefined_recognizers P ++ [custom_recog]
  | None => load_predefined_recognizers P
  end.

(** The whitelist that [anonymize_text] filters with: none when the argument
    is [None]. *)
Definition whitelist_of (whitelist : option (list str)) : list str :=
  match whitelist with
  | Some l => l
  | None => []
  end.

(** The labels of the Detection Match of the data model. *)
Definition data_model_labels : list str :=
  [lit "PERSON"; lit "EMAIL"; lit "PHONE"; lit "LOCATION";
   lit "ORGANIZATION"; lit "CREDIT_CARD"; lit "CUSTOM"].

(** The formats that [process_file] processes, for a lower-cased name. *)
Definition supported (n : str) : bool :=
  endswith n (lit ".csv") || endswith n (lit ".json")
  || endswith n (lit ".txt").

(** The decoded content of a file named [n] parses: at least one row for a
    CSV file, a value for a JSON file, nothing to parse for a text file. *)
Definition parses (L : PyLib) (n decoded : str) : Prop :=
  if endswith n (lit ".csv")
  then exists header rows, csv_reader L decoded = Return (header :: rows)
  else if endswith n (lit ".json")
  then exists v, json_loads L decoded = Return v
  else True.

(** *** What the statements ask of the engines *)

(** The analyzer reports only entities it was asked for. *)
Definition honours_entities (P : Presidio) : Prop :=
  forall registry text es language r,
    In r (analyze P registry text (Some es) language) ->
    In (entity_type r) es.

(** The anonymizer leaves alone what lies outside the spans it is given:
    a stretch [text[a:b]] that meets none of them occurs in its output. *)
Definition keeps_outside (P : Presidio) : Prop :=
  forall text rs a b,
    0 <= a <= b -> b <= len text ->
    (forall r, In r rs -> end_ r <= a \/ b <= start r) ->
    infix (py_slice text a b) (anonymize P text rs).

(** *** Shape of a JSON value *)

(** Two values have the same shape when they differ at string leaves only:
    same keys in the same order, same list lengths, same other scalars. *)
#[warnings="-register-all"] Inductive same_shape : json -> json -> Prop :=
| shape_null : same_shape JNull JNull
| shape_bool : forall b, same_shape (JBool b) (JBool b)
| shape_int : forall n, same_shape (JInt n) (JInt n)
| shape_float : forall x, same_shape (JFloat x) (JFloat x)
| shape_str : forall s t, same_shape (JStr s) (JStr t)
| shape_list : forall xs ys,
    Forall2 same_shape xs ys -> same_shape (JList xs) (JList ys)
| shape_dict : forall items items',
    map fst items = map fst items' ->
    Forall2 (fun kv kv' => same_shape (snd kv) (snd kv')) items items' ->
    same_shape (JDict items) (JDict items').

(** A value as [json.loads] builds it: the keys of a dict are distinct. *)
#[warnings="-register-all"] Inductive distinct_keys : json -> Prop :=
| dk_null : distinct_keys JNull
| dk_bool : forall b, distinct_keys (JBool b)
| dk_int : forall n, distinct_keys (JInt n)
| dk_float : forall x, distinct_keys (JFloat x)
| dk_str : forall s, distinct_keys (JStr s)
| dk_list : forall xs, Forall distinct_keys xs -> distinct_keys (JList xs)
| dk_dict : forall items,
    NoDup (map fst items) ->
    Forall (fun kv => distinct_keys (snd kv)) items ->
    distinct_keys (JDict items).

(** Induction on a JSON value, with the hypothesis on every element of a
    list and on every value of a dict. *)
Section JsonInduction.

Variable Pj : json -> Prop.
Hypothesis Hnull : Pj JNull.
Hypothesis Hbool : forall b, Pj (JBool b).
Hypothesis Hinteger : forall n, Pj (JInt n).
Hypothesis Hfloat : forall x, Pj (JFloat x).
Hypothesis Hstr : forall s, Pj (JStr s).
Hypothesis Hlist : forall xs, Forall Pj xs -> Pj (JList xs).
Hypothesis Hdict :
  forall items, Forall (fun kv => Pj (snd kv)) items -> Pj (JDict items).

Fixpoint json_induction (j : json) : Pj j :=
  match j with
  | JNull => Hnull
  | JBool b => Hbool b
  | JInt n => Hinteger n
  | JFloat x => Hfloat x
  | JStr s => Hstr s
  | JList xs =>
      Hlist ((fix all (l : list json) : Forall Pj l :=
                match l with
                | [] => Forall_nil Pj
                | x :: l' => Forall_cons x (json_induction x) (all l')
                end) xs)
  | JDict items =>
      Hdict ((fix all (l : list (str * json)) :
                Forall (fun kv => Pj (snd kv)) l :=
                match l with
                | [] => Forall_nil _
                | (k, v) :: l' =>
                    Forall_cons (P := fun kv => Pj (snd kv)) (k, v)
                                (json_induction v) (all l')
                end) items)
  end.

End JsonInduction.

(** ** Sample inputs *)

Module Sample.

(** A file with an ASCII content. *)
Definition file (n content : string) : File :=
  {| name := lit n; read := Reference.ascii_bytes content |}.

(** The same, with every apostrophe of [content] read as a double quote. *)
Definition requoted (n content : string) : File :=
  {| name := lit n;
     read := map (fun b => if Byte.eqb b "'"%byte then x22 else b)
                 (Reference.ascii_bytes content) |}.

Definition csv : File :=
  file "People.CSV" "name,email
John Doe,john@example.com
".

Definition empty_csv : File := file "empty.csv" "".

Definition json_file : File :=
  requoted "people.json"
    "{'name': 'John Doe', 'age': 42, 'seen': [true, null, 'john@example.com']}".

Definition json_value : json :=
  JDict [(lit "name", JStr (lit "John Doe"));
         (lit "age", JInt 42);
         (lit "seen", JList [JBool true; JNull;
                             JStr (lit "john@example.com")])].

Definition txt : File := file "note.txt" "Contact John Doe at john@example.com".

(** Not UTF-8: the content of a PDF is never decoded. *)
Definition pdf : File := {| name := lit "Scan.PDF"; read := [xff; xfe] |}.

Definition other : File := file "data.xyz" "John Doe".

Definition person : RecognizerResult :=
  {| entity_type := lit "PERSON"; start := 0; end_ := 8; score := 85 # 100 |}.

Definition email : RecognizerResult :=
  {| entity_type := lit "EMAIL_ADDRESS"; start := 0; end_ := 16;
     score := 1 # 1 |}.

Definition email_match : Match :=
  {| entity := lit "EMAIL_ADDRESS";
     mscore := 1000 # 1000;
     text_of := lit "john@example.com" |}.

End Sample.

(** ** Vocabulary of the further statements *)

(** With a restriction to the entities [es], the analyzer reports the
    results it reports without restriction that bear one of these
    entities. *)
Definition restricts_by_filter (P : Presidio) : Prop :=
  forall registry text es language,
    analyze P registry text (Some es) language
    = filter (fun r => str_in (entity_type r) es)
             (analyze P registry text None language).

(** What [process_json] may put in place of a string leaf: a string, or
    the list of match dicts of a detection. *)
Definition leaf_image (v : json) : Prop :=
  (exists t, v = JStr t) \/ (exists ms, v = json_of_matches ms).

(** Two values agree above their string leaves: same keys in the same
    order, same list lengths, same numbers, booleans and nulls. *)
#[warnings="-register-all"] Inductive same_skeleton : json -> json -> Prop :=
| skel_null : same_skeleton JNull JNull
| skel_bool : forall b, same_skeleton (JBool b) (JBool b)
| skel_int : forall n, same_skeleton (JInt n) (JInt n)
| skel_float : forall x, same_skeleton (JFloat x) (JFloat x)
| skel_str : forall s v, leaf_image v -> same_skeleton (JStr s) v
| skel_list : forall xs ys,
    Forall2 same_skeleton xs ys -> same_skeleton (JList xs) (JList ys)
| skel_dict : forall items items',
    map fst items = map fst items' ->
    Forall2 (fun kv kv' => same_skeleton (snd kv) (snd kv')) items items' ->
    same_skeleton (JDict items) (JDict items').

(** A whitelist entry as line 123 leaves it: no comma inside, no white
    space at either end. *)
Definition trimmed_entry (item : str) : Prop :=
  ~ In comma item
  /\ (forall c r, item = c :: r -> isspace c = false)
  /\ (forall r c, item = r ++ [c] -> isspace c = false).

Module MoreSamples.

(** A text file whose content is not UTF-8. *)
Definition broken_txt : File := {| name := lit "note.txt"; read := [xc3] |}.

(** What a custom pattern ["Doe, John"] finds at the start of a text. *)
Definition listed : RecognizerResult :=
  {| entity_type := lit "CUSTOM_PII"; start := 0; end_ := 9;
     score := 85 # 100 |}.

Definition person_match : Match :=
  {| entity := lit "PERSON";
     mscore := 850 # 1000;
     text_of := lit "John Doe" |}.

End MoreSamples.

(** * Properties *)

(** ** Strings and slices *)

Lemma str_eqb_true (s t : str) : str_eqb s t = true <-> s = t.
Proof.
  unfold str_eqb. destruct (str_eq_dec s t); split; congruence.
Qed.

Lemma str_eqb_false (s t : str) : str_eqb s t = false <-> s <> t.
Proof.
  unfold str_eqb. destruct (str_eq_dec s t); split; congruence.
Qed.

Lemma str_in_In (x : str) (l : list str) : str_in x l = true <-> In x l.
Proof.
  unfold str_in. rewrite existsb_exists. split.
  - intros [y [Hy He]]. apply str_eqb_true in He. now subst.
  - intros Hx. exists x. split; [assumption | now apply str_eqb_true].
Qed.

Lemma str_in_not_In (x : str) (l : list str) :
  str_in x l = false <-> ~ In x l.
Proof.
  rewrite <- str_in_In. destruct (str_in x l); split; congruence.
Qed.

Lemma slice_bound_range (n i : Z) : 0 <= n -> 0 <= slice_bound n i <= n.
Proof.
  intros Hn. unfold slice_bound. destruct (i <? 0) eqn:E.
  - apply Z.ltb_lt in E. lia.
  - apply Z.ltb_ge in E. lia.
Qed.

Lemma slice_bound_id (n i : Z) : 0 <= i <= n -> slice_bound n i = i.
Proof.
  intros H. unfold slice_bound. destruct (i <? 0) eqn:E.
  - apply Z.ltb_lt in E. lia.
  - lia.
Qed.

(** A slice is a contiguous part of the sequence, whatever the bounds. *)
Lemma py_slice_infix (s : str) (i j : Z) : infix (py_slice s i j) s.
Proof.
  unfold infix, py_slice.
  set (a := Z.to_nat (slice_bound (len s) i)).
  set (n := Z.to_nat (slice_bound (len s) j - slice_bound (len s) i)).
  exists (firstn a s), (skipn n (skipn a s)).
  now rewrite firstn_skipn, firstn_skipn.
Qed.

(** Within bounds, a slice is [skipn] followed by [firstn]. *)
Lemma py_slice_within (s : str) (a b : Z) :
  0 <= a <= b -> b <= len s ->
  py_slice s a b = firstn (Z.to_nat (b - a)) (skipn (Z.to_nat a) s).
Proof.
  intros Hab Hb. unfold py_slice.
  now rewrite !slice_bound_id by lia.
Qed.

Lemma infix_length (x s : str) :
  infix x s -> (List.length x <= List.length s)%nat.
Proof.
  intros [p [q ->]]. rewrite !length_app. lia.
Qed.

Lemma infix_app_l (x s p : str) : infix x s -> infix x (p ++ s).
Proof.
  intros [u [v ->]]. exists (p ++ u), v. now rewrite <- app_assoc.
Qed.

Lemma infix_cons (x s : str) (c : char) : infix x s -> infix x (c :: s).
Proof. intros H. exact (infix_app_l [c] H). Qed.

Lemma infix_prefix (x r : str) : infix x (x ++ r).
Proof. now exists [], r. Qed.

(** ** Extensions *)

(** The suffixes that [process_file] tests exclude one another. *)
Lemma startswith_cons (s p : str) (c : char) :
  startswith s (c :: p) = true ->
  exists s', s = c :: s' /\ startswith s' p = true.
Proof.
  destruct s as [|d s']; simpl; [discriminate|].
  intros H. apply andb_prop in H as [H1 H2].
  apply N.eqb_eq in H1. subst. now exists s'.
Qed.

Ltac suffix_clash :=
  unfold endswith; simpl;
  intros H;
  repeat (apply startswith_cons in H as [? [-> H]]);
  simpl; try reflexivity;
  repeat match goal with
         | |- context [startswith ?s _] => destruct s; simpl; try reflexivity
         end.

Lemma json_not_csv (n : str) :
  endswith n (lit ".json") = true -> endswith n (lit ".csv") = false.
Proof. suffix_clash. Qed.

Lemma txt_not_csv_json (n : str) :
  endswith n (lit ".txt") = true ->
  endswith n (lit ".csv") = false /\ endswith n (lit ".json") = false.
Proof. split; revert H; suffix_clash. Qed.

Lemma pdf_not_supported (n : str) :
  endswith n (lit ".pdf") = true ->
  endswith n (lit ".csv") = false /\ endswith n (lit ".json") = false
  /\ endswith n (lit ".txt") = false.
Proof. repeat split; revert H; suffix_clash. Qed.

(** ** The recognizer builder *)

Section Builder.

Context (P : Presidio).

Lemma truthy_nonempty (p : str) : p <> [] -> truthy (Some p) = Some p.
Proof. destruct p; [congruence | reflexivity]. Qed.

(** C5.  [build_custom_regex_recognizer] returns [None] for an absent or
    empty pattern; for any other pattern [p] it calls the constructor with
    the entity ["CUSTOM_PII"] and the single pattern
    [{"name": "custom_pattern", "regex": p, "score": 0.85}], returns the
    recognizer when the constructor returns one, and returns [None], raising
    nothing, when the constructor raises; that [None] is the very value
    returned for an absent pattern. *)
Theorem build_custom_regex_recognizer_cases :
  build_custom_regex_recognizer P None = None
  /\ build_custom_regex_recognizer P (Some []) = None
  /\ (forall (p : str) e,
        p <> [] ->
        PatternRecognizer P (lit "CUSTOM_PII")
          [{| pattern_name := lit "custom_pattern";
              pattern_regex := p;
              pattern_score := 85 # 100 |}] = Raise e ->
        build_custom_regex_recognizer P (Some p) = None
        /\ build_custom_regex_recognizer P (Some p)
           = build_custom_regex_recognizer P None)
  /\ (forall (p : str) r,
        p <> [] ->
        PatternRecognizer P (lit "CUSTOM_PII")
          [{| pattern_name := lit "custom_pattern";
              pattern_regex := p;
              pattern_score := 85 # 100 |}] = Return r ->
        build_custom_regex_recognizer P (Some p) = Some r).
Proof.
  split; [reflexivity|]. split; [reflexivity|]. split.
  - intros p e Hp Hc.
    assert (Hnone : build_custom_regex_recognizer P (Some p) = None).
    { unfold build_custom_regex_recognizer.
      rewrite (truthy_nonempty Hp), Hc. reflexivity. }
    split; [exact Hnone | rewrite Hnone; reflexivity].
  - intros p r Hp Hc. unfold build_custom_regex_recognizer.
    rewrite (truthy_nonempty Hp), Hc. reflexivity.
Qed.

(** Both callers assemble the registry of [registry_for]. *)
Lemma detect_pii_unfold (text : str) (custom_regex : option str) :
  detect_pii P text custom_regex =
  map (fun res =>
         {| entity := entity_type res;
            mscore := round3 (score res);
            text_of := span_text text res |})
      (analyze P (registry_for P custom_regex) text (Some detect_entities)
               (lit "en")).
Proof.
  unfold detect_pii, registry_for, build_custom_regex_recognizer.
  destruct (truthy custom_regex); reflexivity.
Qed.

Lemma anonymize_text_unfold (text : str) (custom_regex : option str)
  (whitelist : option (list str)) :
  anonymize_text P text custom_regex whitelist =
  anonymize P text
    (filter (fun r => negb (str_in (span_text text r)
                                   (whitelist_of whitelist)))
            (analyze P (registry_for P custom_regex) text None (lit "en"))).
Proof.
  assert (Hnil : forall l : list RecognizerResult,
             filter (fun r => negb (str_in (span_text text r) [])) l = l).
  { induction l as [|r l IH]; simpl; [reflexivity | f_equal; exact IH]. }
  unfold anonymize_text, registry_for, build_custom_regex_recognizer.
  destruct (truthy custom_regex); destruct whitelist as [[|w ws]|];
    unfold whitelist_of; rewrite ?Hnil; reflexivity.
Qed.

End Builder.

(** ** The file dispatcher *)

Section Dispatcher.

Context (P : Presidio) (L : PyLib).

(** C6.  The three error cases of [process_file] return a fixed message and
    no payload: "No file uploaded" without a file; the PDF message when the
    lower-cased name ends in [.pdf], whatever the content (it is never
    decoded); "Unsupported file type" when the lower-cased name ends in none
    of [.csv], [.json], [.txt], [.pdf]. *)
Theorem process_file_error_cases (custom_regex whitelist : option str)
  (mode : str) :
  process_file P L None custom_regex whitelist mode
  = Return (lit "No file uploaded", None)
  /\ (forall file,
        endswith (lower L (name file)) (lit ".pdf") = true ->
        process_file P L (Some file) custom_regex whitelist mode
        = Return (lit "PDF support present in your original code (presidio can't extract text reliably).", None))
  /\ (forall file,
        endswith (lower L (name file)) (lit ".csv") = false ->
        endswith (lower L (name file)) (lit ".json") = false ->
        endswith (lower L (name file)) (lit ".txt") = false ->
        endswith (lower L (name file)) (lit ".pdf") = false ->
        process_file P L (Some file) custom_regex whitelist mode
        = Return (lit "Unsupported file type", None)).
Proof.
  split; [reflexivity|]. split.
  - intros file Hpdf.
    destruct (pdf_not_supported _ Hpdf) as [Hcsv [Hjson Htxt]].
    unfold process_file. rewrite Hcsv, Hjson, Htxt, Hpdf. reflexivity.
  - intros file Hcsv Hjson Htxt Hpdf.
    unfold process_file. rewrite Hcsv, Hjson, Htxt, Hpdf. reflexivity.
Qed.

(** What the CSV branch returns once the content has parsed. *)
Lemma process_file_csv (file : File) (custom_regex whitelist : option str)
  (mode decoded : str) (reader : list (list str)) :
  endswith (lower L (name file)) (lit ".csv") = true ->
  decode_utf8 (read file) = Return decoded ->
  csv_reader L decoded = Return reader ->
  process_file P L (Some file) custom_regex whitelist mode =
  match reader with
  | [] => Raise IndexError
  | header :: rows =>
      let out :=
        csv_writerow L header
        ++ List.concat
             (map (csv_writerow L)
                  (map (map (process_cell P L custom_regex mode
                               (whitelist_items_of whitelist)))
                       rows)) in
      Return (out, Some out)
  end.
Proof.
  intros Hcsv Hdec Hread. unfold process_file.
  rewrite Hcsv, Hdec. cbn [bind]. rewrite Hread. cbn [bind].
  destruct reader; reflexivity.
Qed.

Lemma process_file_json (file : File) (custom_regex whitelist : option str)
  (mode decoded : str) (v : json) :
  endswith (lower L (name file)) (lit ".json") = true ->
  decode_utf8 (read file) = Return decoded ->
  json_loads L decoded = Return v ->
  process_file P L (Some file) custom_regex whitelist mode =
  let out :=
    json_dumps L (process_json P custom_regex mode
                    (whitelist_items_of whitelist) v) in
  Return (out, Some out).
Proof.
  intros Hjson Hdec Hload. unfold process_file.
  rewrite (json_not_csv _ Hjson), Hjson, Hdec. cbn [bind].
  rewrite Hload. reflexivity.
Qed.

Lemma process_file_txt (file : File) (custom_regex whitelist : option str)
  (mode text : str) :
  endswith (lower L (name file)) (lit ".txt") = true ->
  decode_utf8 (read file) = Return text ->
  process_file P L (Some file) custom_regex whitelist mode =
  let out :=
    if str_eqb mode (lit "detect")
    then repr_matches L (detect_pii P text custom_regex)
    else anonymize_text P text custom_regex
           (Some (whitelist_items_of whitelist)) in
  Return (out, Some out).
Proof.
  intros Htxt Hdec. unfold process_file.
  destruct (txt_not_csv_json _ Htxt) as [Hcsv Hjson].
  rewrite Hcsv, Hjson, Htxt, Hdec. reflexivity.
Qed.

(** C7.  Whenever [process_file] returns a pair for a file whose lower-cased
    name ends in [.csv], [.json] or [.txt], the payload is the display
    string itself; in every other case (no file, PDF, any other name) it
    returns a pair whose payload is absent.  It does return for a supported
    file whose content decodes and parses. *)
Theorem process_file_payload (file : option File)
  (custom_regex whitelist : option str) (mode : str) :
  (forall display payload,
      process_file P L file custom_regex whitelist mode
      = Return (display, payload) ->
      match file with
      | Some f =>
          if supported (lower L (name f))
          then payload = Some display
          else payload = None
      | None => payload = None
      end)
  /\ (forall f decoded,
        file = Some f ->
        supported (lower L (name f)) = true ->
        decode_utf8 (read f) = Return decoded ->
        parses L (lower L (name f)) decoded ->
        exists display,
          process_file P L file custom_regex whitelist mode
          = Return (display, Some display))
  /\ ((file = None
       \/ exists f, file = Some f /\ supported (lower L (name f)) = false) ->
      exists display,
        process_file P L file custom_regex whitelist mode
        = Return (display, None)).
Proof.
  split; [|split].
  - intros display payload Hret.
    destruct file as [f|]; [|cbn in Hret; congruence].
    unfold supported. unfold process_file in Hret.
    destruct (endswith (lower L (name f)) (lit ".csv")).
    { cbn [orb]. destruct (decode_utf8 (read f)); [|discriminate].
      cbn [bind] in Hret. destruct (csv_reader L a); [|discriminate].
      cbn [bind] in Hret. destruct a0; [discriminate|].
      injection Hret as <- <-. reflexivity. }
    destruct (endswith (lower L (name f)) (lit ".json")).
    { cbn [orb]. destruct (decode_utf8 (read f)); [|discriminate].
      cbn [bind] in Hret. destruct (json_loads L a); [|discriminate].
      cbn [bind] in Hret. injection Hret as <- <-. reflexivity. }
    destruct (endswith (lower L (name f)) (lit ".txt")).
    { cbn [orb]. destruct (decode_utf8 (read f)); [|discriminate].
      cbn [bind] in Hret. injection Hret as <- <-. reflexivity. }
    cbn [orb].
    destruct (endswith (lower L (name f)) (lit ".pdf"));
      injection Hret as <- <-; reflexivity.
  - intros f decoded -> Hsup Hdec Hparse.
    unfold supported in Hsup. unfold parses in Hparse.
    destruct (endswith (lower L (name f)) (lit ".csv")) eqn:Hcsv.
    { destruct Hparse as [header [rows Hread]].
      rewrite (process_file_csv _ _ _ _ Hcsv Hdec Hread).
      eexists. reflexivity. }
    destruct (endswith (lower L (name f)) (lit ".json")) eqn:Hjson.
    { destruct Hparse as [v Hload].
      rewrite (process_file_json _ _ _ _ Hjson Hdec Hload).
      eexists. reflexivity. }
    cbn [orb] in Hsup.
    rewrite (process_file_txt _ _ _ _ Hsup Hdec). eexists. reflexivity.
  - intros [-> | [f [-> Hsup]]].
    + eexists. reflexivity.
    + unfold supported in Hsup.
      apply orb_false_elim in Hsup as [Hsup Htxt].
      apply orb_false_elim in Hsup as [Hcsv Hjson].
      unfold process_file. rewrite Hcsv, Hjson, Htxt.
      destruct (endswith (lower L (name f)) (lit ".pdf"));
        eexists; reflexivity.
Qed.

(** C3.  For a CSV file whose content parses to the header [H] and the rows
    [R], in either mode, the output is the header [H] as written by the CSV
    writer followed by the written rows [R'], where [R'] has as many rows as
    [R], each with as many cells as its source row, every cell being the
    processed source cell. *)
Theorem process_file_csv_shape (file : File)
  (custom_regex whitelist : option str) (mode decoded : str)
  (H : list str) (R : list (list str)) :
  endswith (lower L (name file)) (lit ".csv") = true ->
  decode_utf8 (read file) = Return decoded ->
  csv_reader L decoded = Return (H :: R) ->
  exists R' : list (list str),
    process_file P L (Some file) custom_regex whitelist mode
    = Return (csv_writerow L H ++ List.concat (map (csv_writerow L) R'),
              Some (csv_writerow L H
                    ++ List.concat (map (csv_writerow L) R')))
    /\ List.length R' = List.length R
    /\ Forall2 (fun row row' => List.length row' = List.length row) R R'
    /\ Forall2
         (Forall2 (fun cell cell' =>
                     cell' = process_cell P L custom_regex mode
                               (whitelist_items_of whitelist) cell))
         R R'.
Proof.
  intros Hcsv Hdec Hread.
  set (f := process_cell P L custom_regex mode
              (whitelist_items_of whitelist)).
  exists (map (map f) R). split; [|split; [|split]].
  - rewrite (process_file_csv _ _ _ _ Hcsv Hdec Hread). reflexivity.
  - apply length_map.
  - clear Hread. induction R as [|row R IH]; constructor.
    + apply length_map.
    + exact IH.
  - clear Hread. induction R as [|row R IH]; constructor; [|exact IH].
    induction row as [|cell row IHrow]; constructor; [reflexivity|].
    exact IHrow.
Qed.

(** C10.  In the CSV branch the header is [reader[0]]: when the decoded
    content parses to no row at all, [process_file] raises [IndexError] and
    returns nothing; when it parses to at least one row, the indexing
    succeeds and [process_file] returns. *)
Theorem process_file_csv_needs_a_row (file : File)
  (custom_regex whitelist : option str) (mode decoded : str) :
  endswith (lower L (name file)) (lit ".csv") = true ->
  decode_utf8 (read file) = Return decoded ->
  (csv_reader L decoded = Return [] ->
   process_file P L (Some file) custom_regex whitelist mode
   = Raise IndexError)
  /\ (forall header rows,
        csv_reader L decoded = Return (header :: rows) ->
        exists out,
          process_file P L (Some file) custom_regex whitelist mode
          = Return (out, Some out)).
Proof.
  intros Hcsv Hdec. split.
  - intros Hread.
    now rewrite (process_file_csv _ _ _ _ Hcsv Hdec Hread).
  - intros header rows Hread.
    rewrite (process_file_csv _ _ _ _ Hcsv Hdec Hread).
    eexists. reflexivity.
Qed.

(** In detect mode neither a cell nor a JSON value looks at the whitelist. *)
Lemma process_cell_detect (custom_regex : option str)
  (items items' : list str) (cell : str) :
  process_cell P L custom_regex (lit "detect") items cell
  = process_cell P L custom_regex (lit "detect") items' cell.
Proof. reflexivity. Qed.

Lemma map_ext_Forall' {A B} (f g : A -> B) (l : list A) :
  Forall (fun x => f x = g x) l -> map f l = map g l.
Proof.
  induction 1 as [|x l Hx _ IH]; simpl; [reflexivity|].
  now rewrite Hx, IH.
Qed.

Lemma process_json_detect (custom_regex : option str)
  (items items' : list str) (v : json) :
  process_json P custom_regex (lit "detect") items v
  = process_json P custom_regex (lit "detect") items' v.
Proof.
  induction v as [ | b | n | x | s | xs IH | kvs IH ] using json_induction;
    try reflexivity.
  - cbn [process_json]. f_equal. apply map_ext_Forall'. exact IH.
  - cbn [process_json]. do 2 f_equal. apply map_ext_Forall'.
    eapply Forall_impl; [|exact IH].
    intros [k x] Hx. cbn [snd] in Hx. cbv beta iota. now rewrite Hx.
Qed.

(** C9.  In detect mode the whitelist has no effect: for every file and
    custom pattern, [process_file] with mode "detect" gives the same result
    for any two whitelist values (only [anonymize_text] receives the
    whitelist items; [detect_pii] has no such argument). *)
Theorem process_file_detect_ignores_whitelist (file : option File)
  (custom_regex whitelist whitelist' : option str) :
  process_file P L file custom_regex whitelist (lit "detect")
  = process_file P L file custom_regex whitelist' (lit "detect").
Proof.
  destruct file as [f|]; [|reflexivity].
  unfold process_file.
  destruct (endswith (lower L (name f)) (lit ".csv")).
  { destruct (decode_utf8 (read f)); [|reflexivity]. cbn [bind].
    destruct (csv_reader L a) as [[|header rows]|]; reflexivity. }
  destruct (endswith (lower L (name f)) (lit ".json")).
  { destruct (decode_utf8 (read f)); [|reflexivity]. cbn [bind].
    destruct (json_loads L a); [|reflexivity]. cbn [bind].
    now rewrite (process_json_detect custom_regex
                   (whitelist_items_of whitelist)
                   (whitelist_items_of whitelist')). }
  reflexivity.
Qed.

End Dispatcher.

(** ** The JSON walk *)

Lemma dict_set_fresh {V} (d : list (str * V)) (k : str) (v : V) :
  ~ In k (map fst d) -> dict_set d k v = d ++ [(k, v)].
Proof.
  induction d as [|[k' v'] d IH]; simpl; intros Hk; [reflexivity|].
  destruct (str_eqb k' k) eqn:E.
  - apply str_eqb_true in E. tauto.
  - rewrite IH by tauto. reflexivity.
Qed.

Lemma dict_fold_distinct {V} (items acc : list (str * V)) :
  NoDup (map fst (acc ++ items)) ->
  fold_left (fun d kv => dict_set d (fst kv) (snd kv)) items acc
  = acc ++ items.
Proof.
  revert acc. induction items as [|[k v] items IH]; intros acc Hnd; simpl.
  - now rewrite app_nil_r.
  - rewrite dict_set_fresh.
    + rewrite IH; rewrite <- app_assoc; [reflexivity | exact Hnd].
    + rewrite map_app in Hnd. simpl in Hnd.
      apply NoDup_remove_2 in Hnd. rewrite in_app_iff in Hnd. tauto.
Qed.

(** A dict comprehension over items with distinct keys keeps them all, in
    order. *)
Lemma dict_of_items_distinct {V} (items : list (str * V)) :
  NoDup (map fst items) -> dict_of_items items = items.
Proof. intros Hnd. unfold dict_of_items. now rewrite dict_fold_distinct. Qed.

Section JsonWalk.

Context (P : Presidio) (L : PyLib).

Lemma process_json_same_shape (custom_regex : option str) (mode : str)
  (items : list str) (v : json) :
  str_eqb mode (lit "detect") = false ->
  distinct_keys v ->
  same_shape v (process_json P custom_regex mode items v).
Proof.
  intros Hmode.
  induction v as [ | b | n | x | s | xs IH | kvs IH ] using json_induction;
    intros Hdk; cbn [process_json].
  - constructor.
  - constructor.
  - constructor.
  - constructor.
  - rewrite Hmode. constructor.
  - inversion Hdk as [ | | | | | xs' Hxs | ]; subst.
    apply shape_list.
    induction xs as [|x xs IHxs]; simpl; constructor.
    + inversion IH; inversion Hxs; subst; auto.
    + inversion IH; inversion Hxs; subst. apply IHxs; auto.
      now constructor.
  - inversion Hdk as [ | | | | | | kvs' Hnd Hvals ]; subst.
    set (g := fun kv : str * json =>
                let '(k, x) := kv in
                (k, process_json P custom_regex mode items x)).
    assert (Hkeys : map fst (map g kvs) = map fst kvs).
    { rewrite map_map. apply map_ext. now intros [k x]. }
    rewrite dict_of_items_distinct by now rewrite Hkeys.
    apply shape_dict; [symmetry; exact Hkeys|].
    clear Hnd Hkeys Hdk.
    induction kvs as [|[k x] kvs IHkvs]; simpl; constructor.
    + inversion IH; inversion Hvals; subst; auto.
    + inversion IH; inversion Hvals; subst. now apply IHkvs.
Qed.

(** C4.  For a JSON file processed in a mode other than "detect" (so in
    anonymize mode), whose content parses to the value [v], [process_file]
    returns the serialization of a value [v'] of the same shape as [v]: a
    dict has the same keys in the same order, a list the same length, a
    number, boolean or null is unchanged, and only string leaves differ.
    ([v] is a value as the parser builds it: the keys of a dict are
    distinct.) *)
Theorem process_file_json_shape (file : File)
  (custom_regex whitelist : option str) (mode decoded : str) (v : json) :
  endswith (lower L (name file)) (lit ".json") = true ->
  str_eqb mode (lit "detect") = false ->
  decode_utf8 (read file) = Return decoded ->
  json_loads L decoded = Return v ->
  distinct_keys v ->
  exists v',
    process_file P L (Some file) custom_regex whitelist mode
    = Return (json_dumps L v', Some (json_dumps L v'))
    /\ same_shape v v'.
Proof.
  intros Hjson Hmode Hdec Hload Hdk.
  exists (process_json P custom_regex mode (whitelist_items_of whitelist) v).
  split.
  - now rewrite (process_file_json P L file custom_regex whitelist mode
                   Hjson Hdec Hload).
  - now apply process_json_same_shape.
Qed.

End JsonWalk.

(** ** Rounding a score *)

Lemma round_half_even_near (q : Q) :
  2 * Qnum q - Zpos (Qden q)
  <= 2 * round_half_even q * Zpos (Qden q)
  <= 2 * Qnum q + Zpos (Qden q).
Proof.
  unfold round_half_even.
  set (n := Qnum q). set (d := Zpos (Qden q)).
  assert (Hd : 0 < d) by (unfold d; lia).
  pose proof (Z.div_mod n d ltac:(lia)) as Hdm.
  pose proof (Z.mod_pos_bound n d Hd) as Hr.
  destruct (2 * (n mod d) <? d) eqn:E1.
  - apply Z.ltb_lt in E1. nia.
  - apply Z.ltb_ge in E1. destruct (d <? 2 * (n mod d)) eqn:E2.
    + apply Z.ltb_lt in E2. nia.
    + apply Z.ltb_ge in E2. destruct (Z.even (n / d)); nia.
Qed.

(** The rounded score is a number of thousandths, at most half a thousandth
    away from the score. *)
Lemma round3_near (q : Q) :
  (q - (1 # 2000) <= round3 q /\ round3 q <= q + (1 # 2000))%Q.
Proof.
  pose proof (round_half_even_near (q * (1000 # 1))) as H.
  unfold round3. set (k := round_half_even (q * (1000 # 1))) in *.
  destruct q as [n d]. unfold Qle, Qminus, Qplus, Qopp, Qmult in *.
  cbn [Qnum Qden] in *. rewrite Pos.mul_1_r in H.
  split; nia.
Qed.

(** A score between 0 and 1 stays there. *)
Lemma round3_unit (q : Q) :
  (0 <= q /\ q <= 1)%Q -> (0 <= round3 q /\ round3 q <= 1)%Q.
Proof.
  intros [H0 H1].
  pose proof (round_half_even_near (q * (1000 # 1))) as H.
  unfold round3. set (k := round_half_even (q * (1000 # 1))) in *.
  destruct q as [n d]. unfold Qle, Qmult in *.
  cbn [Qnum Qden] in *. rewrite Pos.mul_1_r in H.
  assert (Hk : 0 <= k <= 1000) by nia.
  split; cbn; lia.
Qed.

(** ** Detection and anonymization *)

Section Detection.

Context (P : Presidio).

(** X12.  Every match of [detect_pii] comes from a result [res] of the
    analyzer: its text is [text[res.start:res.end]], a substring of the
    input whatever the bounds, and its confidence is the score of [res]
    rounded to the nearest thousandth: a number of thousandths, at most half
    a thousandth away from the score, and between 0 and 1 when the score
    is. *)
Theorem detect_pii_text_and_score (text : str) (custom_regex : option str)
  (m : Match) :
  In m (detect_pii P text custom_regex) ->
  exists res,
    In res (analyze P (registry_for P custom_regex) text
              (Some detect_entities) (lit "en"))
    /\ text_of m = py_slice text (start res) (end_ res)
    /\ infix (text_of m) text
    /\ mscore m = round3 (score res)
    /\ (exists k : Z, mscore m = Qmake k 1000)
    /\ (score res - (1 # 2000) <= mscore m
        /\ mscore m <= score res + (1 # 2000))%Q
    /\ ((0 <= score res /\ score res <= 1)%Q ->
        (0 <= mscore m /\ mscore m <= 1)%Q).
Proof.
  rewrite detect_pii_unfold. intros Hm.
  apply in_map_iff in Hm as [res [<- Hres]].
  exists res. cbn [entity mscore text_of]. unfold span_text.
  repeat split; try reflexivity; try assumption.
  - apply py_slice_infix.
  - eexists. reflexivity.
  - apply round3_near.
  - apply round3_near.
  - now apply round3_unit.
  - now apply round3_unit.
Qed.

(** C1, amended.  [anonymize_text] hands the anonymizer the text and the
    detected matches whose text [text[start:end]] is not an element of the
    whitelist, and only those; a whitelisted detected span that no remaining
    match overlaps occurs unmodified in the output of an anonymizer that
    leaves alone what lies outside the spans it is given. *)
Theorem anonymize_text_whitelist (text : str) (custom_regex : option str)
  (whitelist : option (list str)) :
  let found :=
    analyze P (registry_for P custom_regex) text None (lit "en") in
  exists kept,
    anonymize_text P text custom_regex whitelist = anonymize P text kept
    /\ (forall r,
          In r kept <->
          In r found /\ ~ In (span_text text r) (whitelist_of whitelist))
    /\ (keeps_outside P ->
        forall r,
          In r found ->
          In (span_text text r) (whitelist_of whitelist) ->
          0 <= start r <= end_ r -> end_ r <= len text ->
          (forall r', In r' kept ->
                      end_ r' <= start r \/ end_ r <= start r') ->
          infix (span_text text r)
                (anonymize_text P text custom_regex whitelist)).
Proof.
  intros found.
  set (kept := filter (fun r => negb (str_in (span_text text r)
                                        (whitelist_of whitelist))) found).
  assert (Heq : anonymize_text P text custom_regex whitelist
                = anonymize P text kept) by apply anonymize_text_unfold.
  exists kept. split; [exact Heq|]. split.
  - intros r. unfold kept. rewrite filter_In, negb_true_iff.
    now rewrite str_in_not_In.
  - intros Hkeep r _ _ Hwf Hlen Hfree. rewrite Heq.
    unfold span_text. apply Hkeep; assumption.
Qed.

End Detection.

(** ** The reference engine meets what the statements ask *)

Lemma reference_honours_entities : honours_entities Reference.engine.
Proof.
  intros registry text es language r. cbn.
  unfold Reference.analyze. rewrite filter_In.
  intros [_ Hin]. now apply str_in_In.
Qed.

(** From a position where the scan copies, it copies up to [b] when no span
    starts before [b]. *)
Lemma replace_spans_copy (rs : list RecognizerResult) (b : Z) (s : str) :
  forall i,
    (forall r, In r rs -> end_ r <= i \/ b <= start r) ->
    i <= b -> b <= i + len s ->
    exists rest,
      Reference.replace_spans rs i O s
      = firstn (Z.to_nat (b - i)) s ++ rest.
Proof.
  induction s as [|c s IH]; intros i Hfree Hib Hlen.
  - exists []. now rewrite firstn_nil.
  - destruct (Z.eq_dec i b) as [->|Hne].
    + rewrite Z.sub_diag. cbn [Z.to_nat firstn app]. eexists. reflexivity.
    + cbn [Reference.replace_spans].
      destruct (find _ rs) as [r|] eqn:Hfind.
      * apply find_some in Hfind as [Hin Hr].
        apply andb_prop in Hr as [Hs He].
        apply Z.eqb_eq in Hs. apply Z.ltb_lt in He.
        destruct (Hfree r Hin); lia.
      * destruct (IH (i + 1)) as [rest Hrest].
        { intros r Hin. destruct (Hfree r Hin); lia. }
        { lia. }
        { unfold len in *. cbn [List.length] in Hlen. lia. }
        exists rest. rewrite Hrest.
        replace (Z.to_nat (b - i)) with (S (Z.to_nat (b - (i + 1)))) by lia.
        reflexivity.
Qed.

(** A stretch of the text that meets no span occurs in the output of the
    scan. *)
Lemma replace_spans_outside (rs : list RecognizerResult) (a b : Z)
  (s : str) :
  (forall r, In r rs -> end_ r <= a \/ b <= start r) ->
  forall i skip,
    i + Z.of_nat skip <= a -> a <= b -> b <= i + len s ->
    infix (firstn (Z.to_nat (b - a)) (skipn (Z.to_nat (a - i)) s))
          (Reference.replace_spans rs i skip s).
Proof.
  intros Hfree. induction s as [|c s IH]; intros i skip Hi Hab Hlen.
  - rewrite skipn_nil, firstn_nil. now exists [], [].
  - assert (Hlen' : b <= i + 1 + len s).
    { unfold len in *. cbn [List.length] in Hlen. lia. }
    assert (Hskip : i < a ->
              skipn (Z.to_nat (a - i)) (c :: s)
              = skipn (Z.to_nat (a - (i + 1))) s).
    { intros Hia.
      replace (Z.to_nat (a - i)) with (S (Z.to_nat (a - (i + 1)))) by lia.
      reflexivity. }
    destruct skip as [|k].
    + destruct (Z.eq_dec i a) as [->|Hne].
      * rewrite Z.sub_diag. cbn [Z.to_nat skipn].
        destruct (@replace_spans_copy rs b (c :: s) a) as [rest ->];
          try assumption.
        apply infix_prefix.
      * rewrite Hskip by lia. cbn [Reference.replace_spans].
        destruct (find _ rs) as [r|] eqn:Hfind.
        -- apply find_some in Hfind as [Hin Hr].
           apply andb_prop in Hr as [Hs He].
           apply Z.eqb_eq in Hs. apply Z.ltb_lt in He.
           apply infix_app_l. apply IH; try assumption.
           destruct (Hfree r Hin); lia.
        -- apply infix_cons. apply IH; try assumption. lia.
    + rewrite Hskip by lia. cbn [Reference.replace_spans].
      apply IH; try assumption. lia.
Qed.

Lemma reference_keeps_outside : keeps_outside Reference.engine.
Proof.
  intros text rs a b Hab Hb Hfree. cbn. unfold Reference.anonymize.
  rewrite py_slice_within by assumption.
  replace (Z.to_nat a) with (Z.to_nat (a - 0)) by (f_equal; lia).
  apply replace_spans_outside; try assumption; cbn; lia.
Qed.

(** ** The statements on sample inputs *)

Ltac distinct_strings :=
  repeat constructor; cbn; intuition discriminate.

Lemma build_custom_regex_recognizer_cases_witness :
  build_custom_regex_recognizer Reference.engine (Some (lit "(")) = None
  /\ build_custom_regex_recognizer Reference.engine (Some (lit "Doe"))
     = Some {| Reference.dl_entity := lit "CUSTOM_PII";
               Reference.dl_words := [(lit "Doe", 85 # 100)] |}.
Proof.
  destruct (build_custom_regex_recognizer_cases Reference.engine)
    as [_ [_ [Hraise Hreturn]]].
  split.
  - apply (Hraise (lit "(") (ValueError "unsupported pattern"));
      [discriminate | reflexivity].
  - apply Hreturn; [discriminate | reflexivity].
Defined.

Lemma process_file_error_cases_witness :
  process_file Reference.engine Reference.pylib (Some Sample.pdf) None None
    (lit "anonymize")
  = Return (pdf_message, None)
  /\ process_file Reference.engine Reference.pylib (Some Sample.other) None
       None (lit "anonymize")
     = Return (lit "Unsupported file type", None).
Proof.
  destruct (process_file_error_cases Reference.engine Reference.pylib
              None None (lit "anonymize")) as [_ [Hpdf Hother]].
  split; [apply Hpdf | apply Hother]; reflexivity.
Defined.

Lemma process_file_payload_witness :
  exists display,
    process_file Reference.engine Reference.pylib (Some Sample.csv) None None
      (lit "detect")
    = Return (display, Some display).
Proof.
  destruct (process_file_payload Reference.engine Reference.pylib
              (Some Sample.csv) None None (lit "detect"))
    as [_ [Hsupported _]].
  eapply Hsupported.
  - reflexivity.
  - reflexivity.
  - reflexivity.
  - unfold parses. cbn [Sample.csv]. do 2 eexists. reflexivity.
Defined.

Lemma process_file_csv_shape_witness :
  exists R' : list (list str),
    process_file Reference.engine Reference.pylib (Some Sample.csv) None None
      (lit "anonymize")
    = Return (Reference.csv_writerow [lit "name"; lit "email"]
              ++ List.concat (map Reference.csv_writerow R'),
              Some (Reference.csv_writerow [lit "name"; lit "email"]
                    ++ List.concat (map Reference.csv_writerow R')))
    /\ List.length R' = 1%nat.
Proof.
  destruct (process_file_csv_shape Reference.engine Reference.pylib
              Sample.csv None None (lit "anonymize")
              (decoded := lit "name,email
John Doe,john@example.com
")
              (H := [lit "name"; lit "email"])
              (R := [[lit "John Doe"; lit "john@example.com"]]))
    as [R' [Hout [Hlen _]]]; try reflexivity.
  exists R'. split; [exact Hout | exact Hlen].
Defined.

Lemma process_file_csv_needs_a_row_witness :
  process_file Reference.engine Reference.pylib (Some Sample.empty_csv) None
    None (lit "anonymize")
  = Raise IndexError
  /\ exists out,
       process_file Reference.engine Reference.pylib (Some Sample.csv) None
         None (lit "anonymize")
       = Return (out, Some out).
Proof.
  split.
  - eapply (process_file_csv_needs_a_row Reference.engine Reference.pylib
              Sample.empty_csv); reflexivity.
  - eapply (process_file_csv_needs_a_row Reference.engine Reference.pylib
              Sample.csv); reflexivity.
Defined.

Lemma process_file_json_shape_witness :
  exists v',
    process_file Reference.engine Reference.pylib (Some Sample.json_file)
      None None (lit "anonymize")
    = Return (Reference.dumps 0 v', Some (Reference.dumps 0 v'))
    /\ same_shape Sample.json_value v'.
Proof.
  eapply (process_file_json_shape Reference.engine Reference.pylib
            Sample.json_file None None (lit "anonymize")).
  - reflexivity.
  - reflexivity.
  - reflexivity.
  - reflexivity.
  - unfold Sample.json_value. distinct_strings.
Defined.

Lemma detect_pii_text_and_score_witness :
  infix (text_of Sample.email_match)
        (lit "Contact John Doe at john@example.com")
  /\ (0 <= mscore Sample.email_match /\ mscore Sample.email_match <= 1)%Q.
Proof.
  destruct (detect_pii_text_and_score Reference.engine
              (lit "Contact John Doe at john@example.com") None
              Sample.email_match)
    as [res [_ [_ [Hinfix _]]]].
  - left. reflexivity.
  - split; [exact Hinfix | split; discriminate].
Defined.

(** C2.  On a text that holds an e-mail address, [detect_pii] returns the
    match under the label EMAIL_ADDRESS, which is the analyzer's and not a
    label of the data model: the table [PII_LABELS] pairs it with EMAIL, and
    [detect_pii] does not apply the table. *)
Theorem detect_pii_label_not_mapped :
  detect_pii Reference.engine (lit "john@example.com") None
  = [ {| entity := lit "EMAIL_ADDRESS";
         mscore := 1000 # 1000;
         text_of := lit "john@example.com" |} ]
  /\ In (lit "EMAIL_ADDRESS", lit "EMAIL") PII_LABELS
  /\ ~ In (lit "EMAIL_ADDRESS") data_model_labels
  /\ honours_entities Reference.engine.
Proof.
  split; [reflexivity|]. split; [right; left; reflexivity|].
  split; [cbn; intuition discriminate | exact reference_honours_entities].
Qed.

(** When the calls of the analyzer return, [detect_pii] over the raising
    analyzer returns what [detect_pii] over the record [Presidio] gives. *)
Lemma detect_pii_of_presidio (P : Presidio) (text : str)
  (custom_regex : option str) :
  Raising.detect_pii (Raising.of_presidio P) text custom_regex
  = Return (detect_pii P text custom_regex).
Proof.
  unfold Raising.detect_pii, detect_pii.
  destruct (truthy custom_regex); reflexivity.
Qed.

(** C8.  On the empty string with the custom pattern "Doe", [detect_pii]
    raises: the recognizer is built from the dict of line 52 and added to
    the registry, and the analysis of line 73 fails on it.  Without a
    pattern it returns the empty list. *)
Theorem detect_pii_empty_text_raises :
  Raising.build_custom_regex_recognizer Raising.strict (Some (lit "Doe"))
  = Some (Raising.OfDicts (lit "CUSTOM_PII")
            [{| pattern_name := lit "custom_pattern";
                pattern_regex := lit "Doe";
                pattern_score := 85 # 100 |}])
  /\ Raising.detect_pii Raising.strict [] (Some (lit "Doe"))
     = Raise (LibraryError "AttributeError")
  /\ Raising.detect_pii Raising.strict [] None = Return []
  /\ Raising.detect_pii Raising.strict [] (Some []) = Return [].
Proof. repeat split. Qed.

Lemma anonymize_text_whitelist_witness :
  infix (lit "John Doe")
        (anonymize_text Reference.engine
           (lit "John Doe's email is john@example.com") None
           (Some [lit "John Doe"])).
Proof.
  destruct (anonymize_text_whitelist Reference.engine
              (lit "John Doe's email is john@example.com") None
              (Some [lit "John Doe"]))
    as [kept [_ [Hkept Houtside]]].
  apply (Houtside reference_keeps_outside Sample.person).
  - right. right. left. reflexivity.
  - left. reflexivity.
  - cbn. lia.
  - cbn. lia.
  - intros r' Hr'. apply Hkept in Hr' as [Hfound Hfree].
    destruct Hfound as [<- | [<- | [<- | []]]].
    + cbn. lia.
    + cbn. lia.
    + exfalso. apply Hfree. left. reflexivity.
Defined.

(** C1 as stated fails: the address is detected, and it is whitelisted, so
    that match is discarded; but the URL match inside it is not whitelisted
    and is replaced, so the address does not survive in the output. *)
Lemma anonymize_text_whitelist_counterexample :
  let text := lit "john@example.com" in
  keeps_outside Reference.engine
  /\ In Sample.email
        (analyze Reference.engine (registry_for Reference.engine None) text
           None (lit "en"))
  /\ In (span_text text Sample.email) [text]
  /\ anonymize_text Reference.engine text None (Some [text])
     = lit "john@<URL>"
  /\ ~ infix (span_text text Sample.email)
             (anonymize_text Reference.engine text None (Some [text])).
Proof.
  intros text. split; [exact reference_keeps_outside|].
  split; [left; reflexivity|]. split; [left; reflexivity|].
  split; [reflexivity|].
  intros Hinfix. apply infix_length in Hinfix.
  vm_compute in Hinfix. lia.
Qed.

(** * Further properties of main.py *)

(** ** Splitting and trimming the whitelist *)

Lemma lstrip_head (s : str) (c : char) (r : str) :
  lstrip s = c :: r -> isspace c = false.
Proof.
  induction s as [|d s IH]; simpl; [discriminate|].
  destruct (isspace d) eqn:E; [exact IH|].
  intros Heq. injection Heq as <- _. exact E.
Qed.

Lemma lstrip_suffix (s : str) : exists p, s = p ++ lstrip s.
Proof.
  induction s as [|d s [p IH]]; simpl; [now exists []|].
  destruct (isspace d).
  - exists (d :: p). simpl. now f_equal.
  - now exists [].
Qed.

Lemma strip_first (s : str) (c : char) (r : str) :
  strip s = c :: r -> isspace c = false.
Proof.
  unfold strip. intros Heq.
  destruct (lstrip_suffix (rev (lstrip s))) as [p Hp].
  apply (f_equal (@rev char)) in Hp.
  rewrite rev_involutive, rev_app_distr, Heq in Hp.
  simpl in Hp. exact (lstrip_head _ Hp).
Qed.

Lemma strip_last (s : str) (r : str) (c : char) :
  strip s = r ++ [c] -> isspace c = false.
Proof.
  unfold strip. intros Heq.
  apply (f_equal (@rev char)) in Heq.
  rewrite rev_involutive, rev_app_distr in Heq. simpl in Heq.
  exact (lstrip_head _ Heq).
Qed.

Lemma strip_In (s : str) (c : char) : In c (strip s) -> In c s.
Proof.
  assert (Hl : forall t, In c (lstrip t) -> In c t).
  { intros t Hin. destruct (lstrip_suffix t) as [p Hp].
    rewrite Hp. apply in_or_app. now right. }
  unfold strip. intros Hin.
  apply in_rev in Hin. apply Hl in Hin. apply in_rev in Hin.
  now apply Hl.
Qed.

Lemma split_no_separator (sep : char) (s f : str) :
  In f (split sep s) -> ~ In sep f.
Proof.
  revert f. induction s as [|c s IH]; intros f; simpl.
  - intros [<-|[]]. intros [].
  - destruct (N.eqb c sep) eqn:E.
    + intros [<-|Hin]; [intros [] | now apply IH].
    + apply N.eqb_neq in E.
      destruct (split sep s) as [|f0 fs] eqn:Hs.
      * intros [<-|[]]. simpl. tauto.
      * intros [<-|Hin].
        -- simpl. intros [Heq|Hin]; [congruence|].
           apply (IH f0); [now left | exact Hin].
        -- apply IH. now right.
Qed.

Lemma whitelist_items_trimmed (whitelist : option str) (item : str) :
  In item (whitelist_items_of whitelist) -> trimmed_entry item.
Proof.
  unfold whitelist_items_of.
  destruct (truthy whitelist) as [w|]; [|intros []].
  intros Hin. apply in_map_iff in Hin as [f [<- Hf]].
  split; [|split].
  - intros Hc. apply strip_In in Hc.
    exact (split_no_separator _ _ _ Hf Hc).
  - apply strip_first.
  - apply strip_last.
Qed.

Lemma split_length (sep : char) (s : str) :
  List.length (split sep s) = S (count_occ N.eq_dec s sep).
Proof.
  induction s as [|c s IH]; simpl; [reflexivity|].
  destruct (N.eqb c sep) eqn:E.
  - apply N.eqb_eq in E. subst.
    destruct (N.eq_dec sep sep); [|congruence]. simpl. now rewrite IH.
  - apply N.eqb_neq in E.
    destruct (N.eq_dec c sep); [congruence|].
    destruct (split sep s) as [|f fs]; simpl in *; [discriminate | exact IH].
Qed.

(** X1.  The whitelist entries of line 123 (and 199): there are none for an
    absent or empty whitelist, and otherwise one more than the whitelist has
    commas; no entry contains a comma, and none begins or ends with white
    space. *)
Theorem whitelist_items_of_entries (whitelist : option str) :
  (forall item,
      In item (whitelist_items_of whitelist) -> trimmed_entry item)
  /\ (forall w : str,
        whitelist = Some w -> w <> [] ->
        List.length (whitelist_items_of whitelist)
        = S (count_occ N.eq_dec w comma))
  /\ (whitelist = None \/ whitelist = Some [] ->
      whitelist_items_of whitelist = []).
Proof.
  split; [|split].
  - intros item. apply whitelist_items_trimmed.
  - intros w -> Hw. unfold whitelist_items_of.
    rewrite (truthy_nonempty Hw), length_map. apply split_length.
  - intros [-> | ->]; reflexivity.
Qed.

Lemma whitelist_items_of_entries_witness :
  trimmed_entry (lit "John Doe")
  /\ List.length (whitelist_items_of (Some (lit " John Doe ,x,, y"))) = 4%nat.
Proof.
  destruct (whitelist_items_of_entries (Some (lit " John Doe ,x,, y")))
    as [Htrim [Hlen _]].
  split.
  - apply Htrim. left. reflexivity.
  - apply (Hlen (lit " John Doe ,x,, y")); [reflexivity | discriminate].
Defined.

(** ** What the dispatcher depends on *)

Section Congruence.

Context (P : Presidio) (L : PyLib).

(** [process_json] depends on the pattern, the mode and the whitelist
    through what it does to a string leaf. *)
Lemma process_json_ext (cr cr' : option str) (mode mode' : str)
  (items items' : list str) :
  (forall s,
      process_json P cr mode items (JStr s)
      = process_json P cr' mode' items' (JStr s)) ->
  forall v,
    process_json P cr mode items v = process_json P cr' mode' items' v.
Proof.
  intros Hleaf v.
  induction v as [ | b | n | x | s | xs IH | kvs IH ] using json_induction;
    try reflexivity.
  - apply Hleaf.
  - cbn [process_json]. f_equal. apply map_ext_Forall'. exact IH.
  - cbn [process_json]. do 2 f_equal. apply map_ext_Forall'.
    eapply Forall_impl; [|exact IH].
    intros [k x] Hx. cbn [snd] in Hx. cbv beta iota. now rewrite Hx.
Qed.

(** [process_file] depends on them through what it does to a cell (or to
    the body of a text file) and to a string leaf. *)
Lemma process_file_ext (file : option File) (cr cr' wl wl' : option str)
  (mode mode' : str) :
  (forall c,
      process_cell P L cr mode (whitelist_items_of wl) c
      = process_cell P L cr' mode' (whitelist_items_of wl') c) ->
  (forall s,
      process_json P cr mode (whitelist_items_of wl) (JStr s)
      = process_json P cr' mode' (whitelist_items_of wl') (JStr s)) ->
  process_file P L file cr wl mode = process_file P L file cr' wl' mode'.
Proof.
  intros Hcell Hleaf. destruct file as [f|]; [|reflexivity].
  unfold process_file.
  destruct (endswith (lower L (name f)) (lit ".csv")).
  { destruct (decode_utf8 (read f)); [|reflexivity]. cbn [bind].
    destruct (csv_reader L a) as [[|header rows]|]; try reflexivity.
    cbn [bind].
    assert (Hrows :
              map (fun row =>
                     map (process_cell P L cr mode (whitelist_items_of wl))
                         row) rows
              = map (fun row =>
                       map (process_cell P L cr' mode'
                              (whitelist_items_of wl')) row) rows).
    { apply map_ext. intros row. apply map_ext. exact Hcell. }
    now rewrite Hrows. }
  destruct (endswith (lower L (name f)) (lit ".json")).
  { destruct (decode_utf8 (read f)); [|reflexivity]. cbn [bind].
    destruct (json_loads L a); [|reflexivity]. cbn [bind].
    now rewrite (process_json_ext cr cr' mode mode'
                   (whitelist_items_of wl) (whitelist_items_of wl') Hleaf). }
  destruct (endswith (lower L (name f)) (lit ".txt")); [|reflexivity].
  destruct (decode_utf8 (read f)); [|reflexivity]. cbn [bind].
  pose proof (Hcell a) as Ha. unfold process_cell in Ha.
  now rewrite Ha.
Qed.

(** With a pattern that the builder turns into no recognizer, both helpers
    work on the predefined registry. *)
Lemma registry_without_recognizer (cr : option str) :
  build_custom_regex_recognizer P cr = None ->
  registry_for P cr = registry_for P None.
Proof. intros Hnone. unfold registry_for. now rewrite Hnone. Qed.

(** X2.  A custom pattern that is empty, or that the recognizer constructor
    rejects, counts as no pattern: [detect_pii], [anonymize_text] and
    [process_file] return what they return without a pattern. *)
Theorem rejected_pattern_is_no_pattern (p : str) :
  (p = [] \/
   exists e,
     PatternRecognizer P (lit "CUSTOM_PII")
       [{| pattern_name := lit "custom_pattern";
           pattern_regex := p;
           pattern_score := 85 # 100 |}] = Raise e) ->
  (forall text, detect_pii P text (Some p) = detect_pii P text None)
  /\ (forall text whitelist,
        anonymize_text P text (Some p) whitelist
        = anonymize_text P text None whitelist)
  /\ (forall file whitelist mode,
        process_file P L file (Some p) whitelist mode
        = process_file P L file None whitelist mode).
Proof.
  intros Hbad.
  assert (Hnone : build_custom_regex_recognizer P (Some p) = None).
  { unfold build_custom_regex_recognizer.
    destruct Hbad as [-> | [e He]]; [reflexivity|].
    destruct p as [|c r]; [reflexivity|]. cbn [truthy]. now rewrite He. }
  pose proof (registry_without_recognizer _ Hnone) as Hreg.
  assert (Hdet : forall text,
             detect_pii P text (Some p) = detect_pii P text None).
  { intros text. now rewrite !detect_pii_unfold, Hreg. }
  assert (Hano : forall text whitelist,
             anonymize_text P text (Some p) whitelist
             = anonymize_text P text None whitelist).
  { intros text whitelist. now rewrite !anonymize_text_unfold, Hreg. }
  split; [exact Hdet|]. split; [exact Hano|].
  intros file whitelist mode. apply process_file_ext.
  - intros c. unfold process_cell. now rewrite Hdet, Hano.
  - intros s. cbn [process_json]. now rewrite Hdet, Hano.
Qed.

(** X3.  Every mode other than "detect" is the anonymize mode:
    [process_file] returns for it what it returns for "anonymize". *)
Theorem other_modes_anonymize (file : option File)
  (custom_regex whitelist : option str) (mode : str) :
  mode <> lit "detect" ->
  process_file P L file custom_regex whitelist mode
  = process_file P L file custom_regex whitelist (lit "anonymize").
Proof.
  intros Hmode. apply str_eqb_false in Hmode.
  assert (Hano : str_eqb (lit "anonymize") (lit "detect") = false)
    by reflexivity.
  apply process_file_ext.
  - intros c. unfold process_cell. now rewrite Hmode, Hano.
  - intros s. cbn [process_json]. now rewrite Hmode, Hano.
Qed.

End Congruence.

Lemma rejected_pattern_is_no_pattern_witness :
  detect_pii Reference.engine (lit "John Doe") (Some (lit "("))
  = detect_pii Reference.engine (lit "John Doe") None
  /\ process_file Reference.engine Reference.pylib (Some Sample.txt)
       (Some (lit "(")) None (lit "anonymize")
     = process_file Reference.engine Reference.pylib (Some Sample.txt)
         None None (lit "anonymize").
Proof.
  destruct (@rejected_pattern_is_no_pattern Reference.engine Reference.pylib
              (lit "("))
    as [Hdet [_ Hfile]].
  - right. exists (ValueError "unsupported pattern"). reflexivity.
  - split; [apply Hdet | apply Hfile].
Defined.

Lemma other_modes_anonymize_witness :
  process_file Reference.engine Reference.pylib (Some Sample.json_file) None
    None (lit "Detect")
  = process_file Reference.engine Reference.pylib (Some Sample.json_file)
      None None (lit "anonymize").
Proof.
  apply other_modes_anonymize. discriminate.
Defined.

(** ** The whitelist filter *)

Section Whitelist.

Context (P : Presidio).

Lemma filter_ext_In {A} (f g : A -> bool) (l : list A) :
  (forall x, In x l -> f x = g x) -> filter f l = filter g l.
Proof.
  induction l as [|x l IH]; intros Hfg; simpl; [reflexivity|].
  rewrite (Hfg x) by now left.
  rewrite IH; [reflexivity|]. intros y Hy. apply Hfg. now right.
Qed.

Lemma filter_none {A} (f : A -> bool) (l : list A) :
  (forall x, In x l -> f x = false) -> filter f l = [].
Proof.
  induction l as [|x l IH]; intros Hf; simpl; [reflexivity|].
  rewrite (Hf x) by now left. apply IH.
  intros y Hy. apply Hf. now right.
Qed.

Lemma str_in_ext (x : str) (l l' : list str) :
  (In x l <-> In x l') -> str_in x l = str_in x l'.
Proof.
  intros Hiff. destruct (str_in x l') eqn:E.
  - apply str_in_In. apply Hiff. now apply str_in_In.
  - apply str_in_not_In. intros Hin. apply Hiff in Hin.
    apply str_in_In in Hin. congruence.
Qed.

(** X4.  The whitelist of [anonymize_text] counts as a set, and only for
    the detected texts it contains: two whitelists that hold the same
    detected texts give the same output, whatever their order, repetitions
    and other entries; an absent whitelist is an empty one. *)
Theorem anonymize_text_whitelist_as_set (text : str)
  (custom_regex : option str) (whitelist whitelist' : option (list str)) :
  (forall r,
      In r (analyze P (registry_for P custom_regex) text None (lit "en")) ->
      (In (span_text text r) (whitelist_of whitelist) <->
       In (span_text text r) (whitelist_of whitelist'))) ->
  anonymize_text P text custom_regex whitelist
  = anonymize_text P text custom_regex whitelist'.
Proof.
  intros Hsame. rewrite !anonymize_text_unfold. f_equal.
  apply filter_ext_In. intros r Hr. f_equal.
  apply str_in_ext. now apply Hsame.
Qed.

(** X5.  When every detected text is whitelisted, the anonymizer is given
    no span at all; an anonymizer that leaves alone what lies outside its
    spans then returns a text in which the whole input occurs. *)
Theorem anonymize_text_all_whitelisted (text : str)
  (custom_regex : option str) (whitelist : option (list str)) :
  (forall r,
      In r (analyze P (registry_for P custom_regex) text None (lit "en")) ->
      In (span_text text r) (whitelist_of whitelist)) ->
  anonymize_text P text custom_regex whitelist = anonymize P text []
  /\ (keeps_outside P ->
      infix text (anonymize_text P text custom_regex whitelist)).
Proof.
  intros Hall.
  assert (Heq : anonymize_text P text custom_regex whitelist
                = anonymize P text []).
  { rewrite anonymize_text_unfold. f_equal. apply filter_none.
    intros r Hr. apply negb_false_iff. apply str_in_In. now apply Hall. }
  split; [exact Heq|].
  intros Hkeep. rewrite Heq.
  assert (Hwhole : py_slice text 0 (len text) = text).
  { unfold len. rewrite py_slice_within by (unfold len; lia).
    rewrite Z.sub_0_r, Nat2Z.id. cbn [Z.to_nat skipn].
    apply firstn_all. }
  rewrite <- Hwhole at 1.
  apply Hkeep; [unfold len; lia | lia | intros r []].
Qed.

(** X6.  A detected text that contains a comma, or begins or ends with
    white space, cannot be exempted through the whitelist field: whatever
    the field holds, [quick_test] hands its span to the anonymizer (and so
    does [process_file], which splits the field in the same way). *)
Theorem untrimmed_text_never_exempt (text : str)
  (custom_regex whitelist : option str) (r : RecognizerResult) :
  In r (analyze P (registry_for P custom_regex) text None (lit "en")) ->
  ~ trimmed_entry (span_text text r) ->
  exists kept,
    quick_test P text custom_regex whitelist = anonymize P text kept
    /\ In r kept.
Proof.
  intros Hr Hraw. unfold quick_test. rewrite anonymize_text_unfold.
  eexists. split; [reflexivity|].
  apply filter_In. split; [exact Hr|].
  apply negb_true_iff. apply str_in_not_In. cbn [whitelist_of].
  intros Hin. apply Hraw. exact (whitelist_items_trimmed _ _ Hin).
Qed.

End Whitelist.

Lemma anonymize_text_whitelist_as_set_witness :
  anonymize_text Reference.engine
    (lit "John Doe's email is john@example.com") None
    (Some [lit "John Doe"; lit "x"])
  = anonymize_text Reference.engine
      (lit "John Doe's email is john@example.com") None
      (Some [lit "x"; lit "John Doe"]).
Proof.
  apply anonymize_text_whitelist_as_set.
  intros r _. cbn [whitelist_of In]. tauto.
Defined.

Lemma anonymize_text_all_whitelisted_witness :
  infix (lit "John Doe")
        (anonymize_text Reference.engine (lit "John Doe") None
           (Some [lit "John Doe"])).
Proof.
  destruct (@anonymize_text_all_whitelisted Reference.engine
              (lit "John Doe") None (Some [lit "John Doe"]))
    as [_ Hwhole].
  - intros r Hr. vm_compute in Hr. destruct Hr as [<- | []].
    left. reflexivity.
  - exact (Hwhole reference_keeps_outside).
Defined.

Lemma untrimmed_text_never_exempt_witness :
  exists kept,
    quick_test Reference.engine (lit "Doe, John wrote")
      (Some (lit "Doe, John")) (Some (lit "Doe, John"))
    = anonymize Reference.engine (lit "Doe, John wrote") kept
    /\ In MoreSamples.listed kept.
Proof.
  apply untrimmed_text_never_exempt.
  - left. reflexivity.
  - intros [Hcomma _]. apply Hcomma. vm_compute. tauto.
Defined.

(** ** Failures and the three actions *)

Section Failures.

Context (P : Presidio) (L : PyLib).

Lemma decode_utf8_raises (data : bytes) (e : exn) :
  decode_utf8 data = Raise e -> e = UnicodeDecodeError.
Proof.
  unfold decode_utf8. destruct (decode_points _); [discriminate|].
  now intros [= <-].
Qed.

(** X7.  For a name ending in [.csv], [.json] or [.txt], [process_file]
    passes on the failures it meets before any text is processed, in every
    mode and whatever the pattern and the whitelist: content that is not
    UTF-8 ([UnicodeDecodeError]); for a CSV file, what the reader raises,
    and [IndexError] when it returns no row; for a JSON file, what the
    parser raises. *)
Theorem process_file_passes_on_failures (f : File)
  (custom_regex whitelist : option str) (mode : str) :
  supported (lower L (name f)) = true ->
  (forall e,
      decode_utf8 (read f) = Raise e ->
      e = UnicodeDecodeError
      /\ process_file P L (Some f) custom_regex whitelist mode = Raise e)
  /\ (forall decoded,
        decode_utf8 (read f) = Return decoded ->
        endswith (lower L (name f)) (lit ".csv") = true ->
        (forall e,
            csv_reader L decoded = Raise e ->
            process_file P L (Some f) custom_regex whitelist mode = Raise e)
        /\ (csv_reader L decoded = Return [] ->
            process_file P L (Some f) custom_regex whitelist mode
            = Raise IndexError))
  /\ (forall decoded e,
        decode_utf8 (read f) = Return decoded ->
        endswith (lower L (name f)) (lit ".json") = true ->
        json_loads L decoded = Raise e ->
        process_file P L (Some f) custom_regex whitelist mode = Raise e).
Proof.
  intros Hsup. unfold supported in Hsup. split; [|split].
  - intros e Hdec. split; [exact (decode_utf8_raises _ Hdec)|].
    unfold process_file. rewrite Hdec.
    destruct (endswith (lower L (name f)) (lit ".csv")); [reflexivity|].
    destruct (endswith (lower L (name f)) (lit ".json")); [reflexivity|].
    destruct (endswith (lower L (name f)) (lit ".txt"));
      [reflexivity | discriminate].
  - intros decoded Hdec Hcsv. split.
    + intros e Hread. unfold process_file.
      rewrite Hcsv, Hdec. cbn [bind]. now rewrite Hread.
    + intros Hread. unfold process_file.
      rewrite Hcsv, Hdec. cbn [bind]. now rewrite Hread.
  - intros decoded e Hdec Hjson Hload. unfold process_file.
    rewrite (json_not_csv _ Hjson), Hjson, Hdec. cbn [bind].
    now rewrite Hload.
Qed.

(** X8.  On a text file the two file actions are the two helpers: the
    detect action shows the detection of the whole body, whatever the
    whitelist field holds, and the anonymize action shows what
    [quick_test] returns for the body typed in. *)
Theorem file_actions_on_text (f : File) (custom_regex whitelist : option str)
  (text : str) :
  endswith (lower L (name f)) (lit ".txt") = true ->
  decode_utf8 (read f) = Return text ->
  analyze_file P L (Some f) custom_regex whitelist
  = Return (repr_matches L (detect_pii P text custom_regex))
  /\ anonymize_file P L (Some f) custom_regex whitelist
     = Return (quick_test P text custom_regex whitelist).
Proof.
  intros Htxt Hdec. unfold analyze_file, anonymize_file, quick_test.
  rewrite !(process_file_txt P L f custom_regex whitelist _ Htxt Hdec).
  split; reflexivity.
Qed.

End Failures.

Lemma process_file_passes_on_failures_witness :
  process_file Reference.engine Reference.pylib
    (Some MoreSamples.broken_txt) None None (lit "detect")
  = Raise UnicodeDecodeError.
Proof.
  destruct (process_file_passes_on_failures Reference.engine Reference.pylib
              MoreSamples.broken_txt None None (lit "detect"))
    as [Hdecode _].
  - reflexivity.
  - apply Hdecode. reflexivity.
Defined.

Lemma file_actions_on_text_witness :
  anonymize_file Reference.engine Reference.pylib (Some Sample.txt) None
    (Some (lit "John Doe"))
  = Return (quick_test Reference.engine
              (lit "Contact John Doe at john@example.com") None
              (Some (lit "John Doe"))).
Proof.
  apply file_actions_on_text; reflexivity.
Defined.

(** ** The JSON walk in every mode *)

Section Skeleton.

Context (P : Presidio) (L : PyLib).

Lemma process_json_same_skeleton (custom_regex : option str) (mode : str)
  (items : list str) (v : json) :
  distinct_keys v ->
  same_skeleton v (process_json P custom_regex mode items v).
Proof.
  induction v as [ | b | n | x | s | xs IH | kvs IH ] using json_induction;
    intros Hdk; cbn [process_json].
  - constructor.
  - constructor.
  - constructor.
  - constructor.
  - apply skel_str. destruct (str_eqb mode (lit "detect")).
    + right. eexists. reflexivity.
    + left. eexists. reflexivity.
  - inversion Hdk as [ | | | | | xs' Hxs | ]; subst.
    apply skel_list.
    induction xs as [|x xs IHxs]; simpl; constructor.
    + inversion IH; inversion Hxs; subst; auto.
    + inversion IH; inversion Hxs; subst. apply IHxs; auto.
      now constructor.
  - inversion Hdk as [ | | | | | | kvs' Hnd Hvals ]; subst.
    set (g := fun kv : str * json =>
                let '(k, x) := kv in
                (k, process_json P custom_regex mode items x)).
    assert (Hkeys : map fst (map g kvs) = map fst kvs).
    { rewrite map_map. apply map_ext. now intros [k x]. }
    rewrite dict_of_items_distinct by now rewrite Hkeys.
    apply skel_dict; [symmetry; exact Hkeys|].
    clear Hnd Hkeys Hdk.
    induction kvs as [|[k x] kvs IHkvs]; simpl; constructor.
    + inversion IH; inversion Hvals; subst; auto.
    + inversion IH; inversion Hvals; subst. now apply IHkvs.
Qed.

(** X10.  In every mode, detect included, the value that [process_file]
    serializes for a JSON file agrees with the parsed value above the
    string leaves: same keys in the same order, same list lengths, same
    numbers, booleans and nulls; a string leaf has become a string or the
    list of the match dicts of a detection. *)
Theorem process_file_json_skeleton (file : File)
  (custom_regex whitelist : option str) (mode decoded : str) (v : json) :
  endswith (lower L (name file)) (lit ".json") = true ->
  decode_utf8 (read file) = Return decoded ->
  json_loads L decoded = Return v ->
  distinct_keys v ->
  exists v',
    process_file P L (Some file) custom_regex whitelist mode
    = Return (json_dumps L v', Some (json_dumps L v'))
    /\ same_skeleton v v'.
Proof.
  intros Hjson Hdec Hload Hdk.
  exists (process_json P custom_regex mode (whitelist_items_of whitelist) v).
  split.
  - now rewrite (process_file_json P L file custom_regex whitelist mode
                   Hjson Hdec Hload).
  - now apply process_json_same_skeleton.
Qed.

End Skeleton.

Lemma process_file_json_skeleton_witness :
  exists v',
    process_file Reference.engine Reference.pylib (Some Sample.json_file)
      None None (lit "detect")
    = Return (Reference.dumps 0 v', Some (Reference.dumps 0 v'))
    /\ same_skeleton Sample.json_value v'.
Proof.
  eapply (process_file_json_skeleton Reference.engine Reference.pylib
            Sample.json_file None None (lit "detect")).
  - reflexivity.
  - reflexivity.
  - reflexivity.
  - unfold Sample.json_value. distinct_strings.
Defined.

(** ** Detection within anonymization *)

Section Inclusion.

Context (P : Presidio).

(** X11.  With an analyzer whose restriction to entities is a filter,
    what [detect_pii] reports is part of what [anonymize_text] works on:
    every reported match is a span found by the analysis of
    [anonymize_text], with the same label and text, and that span is handed
    to the anonymizer unless its text is whitelisted. *)
Theorem detected_is_anonymized (text : str) (custom_regex : option str)
  (whitelist : option (list str)) (m : Match) :
  restricts_by_filter P ->
  In m (detect_pii P text custom_regex) ->
  exists r,
    In r (analyze P (registry_for P custom_regex) text None (lit "en"))
    /\ entity m = entity_type r
    /\ text_of m = span_text text r
    /\ (~ In (text_of m) (whitelist_of whitelist) ->
        exists kept,
          anonymize_text P text custom_regex whitelist
          = anonymize P text kept
          /\ In r kept).
Proof.
  intros Hfilter Hm. rewrite detect_pii_unfold, Hfilter in Hm.
  apply in_map_iff in Hm as [r [<- Hr]].
  apply filter_In in Hr as [Hr _].
  exists r. cbn [entity text_of]. repeat split; try assumption.
  intros Hfree. rewrite anonymize_text_unfold.
  eexists. split; [reflexivity|].
  apply filter_In. split; [exact Hr|].
  apply negb_true_iff. now apply str_in_not_In.
Qed.

End Inclusion.

Lemma reference_restricts_by_filter : restricts_by_filter Reference.engine.
Proof. intros registry text es language. reflexivity. Qed.

Lemma detected_is_anonymized_witness :
  exists r kept,
    entity_type r = lit "PERSON"
    /\ anonymize_text Reference.engine
         (lit "Contact John Doe at john@example.com") None
         (Some [lit "john@example.com"])
       = anonymize Reference.engine
           (lit "Contact John Doe at john@example.com") kept
    /\ In r kept.
Proof.
  destruct (@detected_is_anonymized Reference.engine
              (lit "Contact John Doe at john@example.com") None
              (Some [lit "john@example.com"]) MoreSamples.person_match
              reference_restricts_by_filter)
    as [r [_ [Hlabel [_ Hkept]]]].
  - right. left. reflexivity.
  - destruct Hkept as [kept [Heq Hin]].
    + cbn. intuition discriminate.
    + exists r, kept. split; [now rewrite <- Hlabel|].
      split; assumption.
Defined.
